(** * Orbit AI essay backend: the evaluation engine and the essay routes

    A shallow embedding of the Express/Mongoose server of the repository:
    [evaluateEssayAI], the [Essay] schema with its validators, and the
    routes [POST /api/essays/evaluate], [PUT /api/essays/:id] and
    [DELETE /api/essays/:id]; then the read routes [GET /api/essays],
    [GET /api/essays/:id] and [GET /api/stats], and the word counter and
    the mock evaluation of the frontend component.

    Modelling conventions.
    - A JavaScript string is a [string] of code units below 256 (Latin-1);
      [\s], [trim] and [toLowerCase] are the ECMAScript ones restricted to
      that range.
    - A JavaScript number is an exact rational ([Q]); the only division of
      the engine that can have a zero divisor yields a [number], which adds
      the infinities and NaN.  Rounding errors of IEEE doubles are not
      modelled.
    - [Math.random] is a sequence of outcomes [random : nat -> Q]; the
      number of draws made so far is threaded through the code as state.
    - A request body field is [None] when the JSON body does not carry it
      and [Some s] when it carries the string [s]. *)

From Stdlib Require Import ZArith QArith Qround Lqa Lia String Ascii List.
From stdpp Require Import gmap strings list.

Local Open Scope Z_scope.

(** ** JavaScript strings *)

Module Str.

(** The code units below 256 that [\s] matches and [trim] strips:
    TAB, LF, VT, FF, CR, SPACE and NBSP. *)
Definition isWhiteSpace (c : ascii) : bool :=
  let n := N_of_ascii c in
  ((9 <=? n) && (n <=? 13) || (n =? 32) || (n =? 160))%N.

(** The class [[.!?]]. *)
Definition isSentenceEnd (c : ascii) : bool :=
  let n := N_of_ascii c in
  ((n =? 46) || (n =? 33) || (n =? 63))%N.

Fixpoint trimStart (s : string) : string :=
  match s with
  | EmptyString => EmptyString
  | String c s' => if isWhiteSpace c then trimStart s' else s
  end.

Fixpoint trimEnd (s : string) : string :=
  match s with
  | EmptyString => EmptyString
  | String c s' =>
      match trimEnd s' with
      | EmptyString => if isWhiteSpace c then EmptyString else String c EmptyString
      | t => String c t
      end
  end.

(** [String.prototype.trim]. *)
Definition trim (s : string) : string := trimEnd (trimStart s).

(** [s.split(/[C]+/)] for a character class [C] given as [sep]: the
    fragments between the maximal runs of separator characters.  A run at
    the very start or the very end of [s] leaves an empty fragment there,
    and the empty string splits into one empty fragment. *)
Fixpoint split (sep : ascii -> bool) (s : string) : list string :=
  match s with
  | EmptyString => [EmptyString]
  | String c s' =>
      if sep c then
        match s' with
        | String c' _ => if sep c' then split sep s' else EmptyString :: split sep s'
        | EmptyString => EmptyString :: split sep s'
        end
      else
        match split sep s' with
        | h :: t => String c h :: t
        | [] => [String c EmptyString]
        end
  end.

(** [toLowerCase] on one code unit: A-Z and the Latin-1 capitals
    U+00C0-U+00DE (but not the multiplication sign U+00D7). *)
Definition toLowerChar (c : ascii) : ascii :=
  let n := N_of_ascii c in
  if ((65 <=? n) && (n <=? 90) || (192 <=? n) && (n <=? 222) && negb (n =? 215))%N
  then ascii_of_N (n + 32) else c.

Fixpoint toLowerCase (s : string) : string :=
  match s with
  | EmptyString => EmptyString
  | String c s' => String (toLowerChar c) (toLowerCase s')
  end.

(** [s.length]. *)
Definition len (s : string) : Z := Z.of_nat (String.length s).

(** ["x".repeat(n)]. *)
Fixpoint repeat (s : string) (n : nat) : string :=
  match n with
  | O => EmptyString
  | S n' => String.append s (repeat s n')
  end.

End Str.

(** ** JavaScript numbers *)

Module Num.

(** The result of a division: a finite value, an infinity or NaN. *)
Inductive number : Type :=
  | Fin (q : Q)
  | PosInfinity
  | NegInfinity
  | NaN.

(** [a / b] on integers. *)
Definition div (a b : Z) : number :=
  if b =? 0 then
    if a =? 0 then NaN else if 0 <? a then PosInfinity else NegInfinity
  else Fin (inject_Z a / inject_Z b)%Q.

Definition Qlt_bool (a b : Q) : bool := negb (Qle_bool b a).

(** [x < y] and [x <= y]; every comparison with NaN is false. *)
Definition lt (x y : number) : bool :=
  match x, y with
  | NaN, _ | _, NaN => false
  | Fin a, Fin b => Qlt_bool a b
  | NegInfinity, (Fin _ | PosInfinity) => true
  | Fin _, PosInfinity => true
  | _, _ => false
  end.

Definition le (x y : number) : bool :=
  match x, y with
  | NaN, _ | _, NaN => false
  | Fin a, Fin b => Qle_bool a b
  | NegInfinity, _ => true
  | _, PosInfinity => true
  | _, _ => false
  end.

Definition gt (x y : number) : bool := lt y x.
Definition ge (x y : number) : bool := le y x.

(** [Math.max], [Math.min], [Math.round] and [Math.ceil] on finite values. *)
Definition max (a b : Q) : Q := if Qle_bool a b then b else a.
Definition min (a b : Q) : Q := if Qle_bool a b then a else b.
Definition round (x : Q) : Z := Qfloor (x + (1 # 2))%Q.
Definition ceil (x : Q) : Z := Qceiling x.

End Num.

(** ** The evaluation engine ([evaluateEssayAI]) *)

Module Engine.

Record Breakdown : Type := {
  grammar : Q;
  structure : Q;
  coherence : Q;
  vocabulary : Q;
  arguments : Q
}.

Record Suggestion : Type := {
  original : string;
  improved : string;
  reason : string
}.

(** The object that [evaluateEssayAI] returns. *)
Record Evaluation : Type := {
  overallScore : Q;
  breakdown : Breakdown;
  strengths : list string;
  improvements : list string;
  suggestions : list Suggestion;
  wordCount : Z;
  charCount : Z;
  readability : string;
  estimatedReadTime : Z
}.

(** Code that calls [Math.random]: the state is the number of draws made
    so far. *)
Definition Rand (A : Type) : Type := nat -> A * nat.

Definition ret {A : Type} (a : A) : Rand A := fun k => (a, k).

Definition bind {A B : Type} (m : Rand A) (f : A -> Rand B) : Rand B :=
  fun k => let '(a, k') := m k in f a k'.

Notation "'let*' x ':=' m 'in' f" := (bind m (fun x => f))
  (at level 10, x name, m at level 100, f at level 200).

(** The features read off the text (lines 117-119, 129 and 134-136). *)
Definition wordCountOf (essayText : string) : Z :=
  Z.of_nat (length (Str.split Str.isWhiteSpace (Str.trim essayText))).

Definition sentencesOf (essayText : string) : list string :=
  List.filter (fun s => 0 <? Str.len (Str.trim s))
              (Str.split Str.isSentenceEnd essayText).

Definition avgSentenceLengthOf (essayText : string) : Num.number :=
  Num.div (wordCountOf essayText) (Z.of_nat (length (sentencesOf essayText))).

Definition wordsOf (essayText : string) : list string :=
  Str.split Str.isWhiteSpace (Str.toLowerCase essayText).

Definition vocabularyRichnessOf (essayText : string) : Num.number :=
  let words := wordsOf essayText in
  let uniqueWords : gset string := list_to_set words in
  Num.div (Z.of_nat (size uniqueWords)) (Z.of_nat (length words)).

(** The value of [baseScore] when line 141 is reached. *)
Definition baseScoreOf (essayText : string) : Z :=
  let wordCount := wordCountOf essayText in
  let baseScore := 70 in
  let baseScore :=
    if (300 <=? wordCount) && (wordCount <=? 800) then baseScore + 10
    else if wordCount <? 100 then baseScore - 15
    else baseScore in
  let avgSentenceLength := avgSentenceLengthOf essayText in
  let baseScore :=
    if Num.ge avgSentenceLength (Num.Fin 15) && Num.le avgSentenceLength (Num.Fin 25)
    then baseScore + 5 else baseScore in
  let vocabularyRichness := vocabularyRichnessOf essayText in
  let baseScore :=
    if Num.gt vocabularyRichness (Num.Fin (6 # 10)) then baseScore + 8 else baseScore in
  baseScore.

Definition defaultStrengths : list string :=
  ["Clear writing style"; "Good effort in addressing the topic"]%string.

Definition defaultImprovements : list string :=
  ["Continue refining your arguments"; "Consider adding more specific examples"]%string.

Definition defaultSuggestions : list Suggestion :=
  [ {| original := "Sample text for improvement";
       improved := "Enhanced version with better structure and vocabulary";
       reason := "Improved clarity and impact" |} ].

Definition orDefault {A : Type} (l d : list A) : list A :=
  match l with [] => d | _ => l end.

Section WithRandom.

(** [random k] is what the call number [k] of [Math.random] returns. *)
Variable random : nat -> Q.

Definition Math_random : Rand Q := fun k => (random k, S k).

(** [overallScore] of line 142, before it is rounded. *)
Definition clampedScore (baseScore : Z) (randomFactor : Q) : Q :=
  Num.max 50 (Num.min 98 (inject_Z baseScore + randomFactor)).

Definition evaluateEssayAI (essayText : string) : Rand Evaluation :=
  let wordCount := wordCountOf essayText in
  let charCount := Str.len essayText in
  let sentences := sentencesOf essayText in
  let baseScore := baseScoreOf essayText in
  let avgSentenceLength := avgSentenceLengthOf essayText in
  let vocabularyRichness := vocabularyRichnessOf essayText in
  let* r := Math_random in
  let randomFactor := (r * 12 - 6)%Q in
  let overallScore := clampedScore baseScore randomFactor in
  let* r1 := Math_random in
  let* r2 := Math_random in
  let* r3 := Math_random in
  let* r4 := Math_random in
  let* r5 := Math_random in
  let breakdown := {|
    grammar := Num.min 100 (overallScore + (r1 * 10 - 5));
    structure := Num.min 100 (overallScore + (r2 * 8 - 4));
    coherence := Num.min 100 (overallScore + (r3 * 12 - 6));
    vocabulary := Num.min 100 (overallScore + (r4 * 10 - 5));
    arguments := Num.min 100 (overallScore + (r5 * 15 - 7)) |}%Q in
  let strengths :=
    (if Num.Qlt_bool 85 (grammar breakdown)
     then ["Excellent grammar with minimal errors"%string] else []) ++
    (if Num.Qlt_bool 80 (structure breakdown)
     then ["Well-organized essay structure with clear progression"%string] else []) ++
    (if 500 <? wordCount
     then ["Comprehensive coverage of the topic"%string] else []) ++
    (if Num.gt vocabularyRichness (Num.Fin (65 # 100))
     then ["Rich and varied vocabulary usage"%string] else []) in
  let improvements :=
    (if Num.Qlt_bool (coherence breakdown) 75
     then ["Improve logical flow between paragraphs"%string] else []) ++
    (if Num.gt avgSentenceLength (Num.Fin 30)
     then ["Consider breaking down complex sentences for clarity"%string] else []) ++
    (if wordCount <? 300
     then ["Expand arguments with more supporting evidence"%string] else []) ++
    (if Num.Qlt_bool (arguments breakdown) 80
     then ["Strengthen main arguments with specific examples"%string] else []) in
  let sampleSentences := firstn 3 sentences in
  let suggestions :=
    concat (imap (fun idx sentence =>
      if Nat.eqb idx 0 && (Str.len (Str.trim sentence) <? 80)
      then [ {| original := String.append (Str.trim sentence) ".";
                improved := "Consider expanding your opening statement to provide more context and engage the reader immediately.";
                reason := "Stronger opening statement" |} ]
      else []) sampleSentences) in
  let readability :=
    if Num.lt avgSentenceLength (Num.Fin 15) then "High School Level"%string
    else if Num.gt avgSentenceLength (Num.Fin 25) then "Graduate Level"%string
    else "College Level"%string in
  ret {|
    overallScore := (inject_Z (Num.round (overallScore * 10)) / 10)%Q;
    breakdown := breakdown;
    strengths := orDefault strengths defaultStrengths;
    improvements := orDefault improvements defaultImprovements;
    suggestions := orDefault suggestions defaultSuggestions;
    wordCount := wordCount;
    charCount := charCount;
    readability := readability;
    estimatedReadTime := Num.ceil (inject_Z wordCount / 200)%Q
  |}.

End WithRandom.

End Engine.


(** ** The Essay model (lines 55-113) *)

Module Model.

(** The [results] path of the schema.  The schema is strict, so of the
    object the engine returns only these paths are stored: its [wordCount]
    and [charCount] are stored at the top level of the document. *)
Record Results : Type := {
  overallScore : Q;
  breakdown : Engine.Breakdown;
  strengths : list string;
  improvements : list string;
  suggestions : list Engine.Suggestion;
  readability : string;
  estimatedReadTime : Z
}.

Definition castResults (r : Engine.Evaluation) : Results := {|
  overallScore := Engine.overallScore r;
  breakdown := Engine.breakdown r;
  strengths := Engine.strengths r;
  improvements := Engine.improvements r;
  suggestions := Engine.suggestions r;
  readability := Engine.readability r;
  estimatedReadTime := Engine.estimatedReadTime r
|}.

(** A stored document.  [userId] (never set by a route), the timestamps
    and the version key are left out; the document id is its key in the
    collection. *)
Record Essay : Type := {
  text : string;
  university : string;
  level : string;
  wordCount : Z;
  charCount : Z;
  results : option Results;
  status : string
}.

Definition levelEnum : list string := ["undergrad"; "mba"]%string.
Definition statusEnum : list string := ["draft"; "evaluated"; "archived"]%string.

(** The validators of the schema, path by path. *)
Definition validText (s : string) : bool := 10 <=? Str.len s.
Definition validLevel (s : string) : bool := bool_decide (s ∈ levelEnum).
Definition validStatus (s : string) : bool := bool_decide (s ∈ statusEnum).

Definition validate (e : Essay) : bool :=
  validText (text e) && validLevel (level e) && validStatus (status e).

(** [doc.save()] of a new document: [None] when validation rejects it (the
    promise rejects and nothing is written), otherwise the id given to the
    document and the collection with the document in it. *)
Definition save (e : Essay) (coll : gmap positive Essay)
  : option (positive * gmap positive Essay) :=
  if validate e then
    let id := fresh (dom coll) in Some (id, <[id := e]> coll)
  else None.

(** The update object that the PUT route builds. *)
Record UpdateData : Type := {
  set_text : option string;
  set_wordCount : option Z;
  set_charCount : option Z;
  set_university : option string;
  set_level : option string;
  set_status : option string
}.

Definition validOpt (v : string -> bool) (o : option string) : bool :=
  match o with Some s => v s | None => true end.

(** The update validators ([runValidators: true]) look at the paths that
    the update sets. *)
Definition validateUpdate (u : UpdateData) : bool :=
  validOpt validText (set_text u) && validOpt validLevel (set_level u)
  && validOpt validStatus (set_status u).

Definition applyUpdate (u : UpdateData) (e : Essay) : Essay := {|
  text := default (text e) (set_text u);
  university := default (university e) (set_university u);
  level := default (level e) (set_level u);
  wordCount := default (wordCount e) (set_wordCount u);
  charCount := default (charCount e) (set_charCount u);
  results := results e;
  status := default (status e) (set_status u)
|}.

(** [Essay.findByIdAndUpdate(id, u, { new: true, runValidators: true })]:
    [None] when a validator rejects the update, otherwise the updated
    document ([None] for an unknown id) and the collection. *)
Definition findByIdAndUpdate (id : positive) (u : UpdateData)
    (coll : gmap positive Essay)
  : option (option Essay * gmap positive Essay) :=
  if validateUpdate u then
    match coll !! id with
    | Some e => let e' := applyUpdate u e in Some (Some e', <[id := e']> coll)
    | None => Some (None, coll)
    end
  else None.

(** [Essay.findByIdAndDelete(id)]. *)
Definition findByIdAndDelete (id : positive) (coll : gmap positive Essay)
  : option Essay * gmap positive Essay :=
  (coll !! id, delete id coll).

End Model.

(** ** The routes *)

Module Server.

Import Model.

(** The JSON bodies of the two routes that write. *)
Record EvaluateBody : Type := {
  ev_text : option string;
  ev_university : option string;
  ev_level : option string
}.

Record UpdateBody : Type := {
  up_text : option string;
  up_university : option string;
  up_level : option string;
  up_status : option string
}.

(** What the client gets: the HTTP status, and the [success], [data] and
    [error] members of the JSON answer. *)
Record Response : Type := {
  httpStatus : Z;
  success : bool;
  data : option (positive * Essay);
  error : option string
}.

Definition failure (code : Z) (msg : string) : Response :=
  {| httpStatus := code; success := false; data := None; error := Some msg |}.

Definition ok (code : Z) (d : option (positive * Essay)) : Response :=
  {| httpStatus := code; success := true; data := d; error := None |}.

(** The server: the collection and the number of [Math.random] draws so
    far. *)
Record World : Type := {
  essays : gmap positive Essay;
  draws : nat
}.

Definition initial : World := {| essays := ∅; draws := 0 |}.

(** [if (x)] on a body field. *)
Definition truthy (o : option string) : bool :=
  match o with
  | Some s => negb (String.eqb s "")
  | None => false
  end.

(** [x || d] on a body field. *)
Definition orElse (o : option string) (d : string) : string :=
  match o with
  | Some s => if String.eqb s "" then d else s
  | None => d
  end.

(** The document that the evaluate route builds (lines 312-320). *)
Definition newEssay (body : EvaluateBody) (text : string)
    (results : Engine.Evaluation) : Essay := {|
  Model.text := text;
  university := orElse (ev_university body) "";
  level := orElse (ev_level body) "undergrad";
  wordCount := Engine.wordCount results;
  charCount := Engine.charCount results;
  Model.results := Some (castResults results);
  status := "evaluated"
|}.

Section WithRandom.

Variable random : nat -> Q.

(** [POST /api/essays/evaluate] (lines 299-337). *)
Definition postEvaluate (body : EvaluateBody) (w : World) : Response * World :=
  match ev_text body with
  | Some text =>
      if String.eqb text "" || (Str.len (Str.trim text) <? 10) then
        (failure 400 "Essay text must be at least 10 characters long", w)
      else
        let '(results, k) := Engine.evaluateEssayAI random text (draws w) in
        let essay := newEssay body text results in
        match save essay (essays w) with
        | Some (id, coll) =>
            (ok 201 (Some (id, essay)), {| essays := coll; draws := k |})
        | None =>
            (failure 500 "Failed to evaluate essay",
             {| essays := essays w; draws := k |})
        end
  | None => (failure 400 "Essay text must be at least 10 characters long", w)
  end.

(** [PUT /api/essays/:id] (lines 339-380). *)
Definition updateDataOf (body : UpdateBody) : UpdateData :=
  let text := up_text body in
  let has_text := truthy text in {|
  set_text := if has_text then text else None;
  set_wordCount :=
    if has_text
    then (fun t => Z.of_nat (length (Str.split Str.isWhiteSpace (Str.trim t)))) <$> text
    else None;
  set_charCount := if has_text then Str.len <$> text else None;
  set_university := up_university body;
  set_level := if truthy (up_level body) then up_level body else None;
  set_status := if truthy (up_status body) then up_status body else None
|}.

Definition putEssay (id : positive) (body : UpdateBody) (w : World)
  : Response * World :=
  let updateData := updateDataOf body in
  match findByIdAndUpdate id updateData (essays w) with
  | Some (Some essay, coll) =>
      (ok 200 (Some (id, essay)), {| essays := coll; draws := draws w |})
  | Some (None, _) => (failure 404 "Essay not found", w)
  | None => (failure 500 "Failed to update essay", w)
  end.

(** [DELETE /api/essays/:id] (lines 382-405). *)
Definition deleteEssay (id : positive) (w : World) : Response * World :=
  match findByIdAndDelete id (essays w) with
  | (Some _, coll) => (ok 200 None, {| essays := coll; draws := draws w |})
  | (None, _) => (failure 404 "Essay not found", w)
  end.

(** The requests that change the collection, and the worlds the server can
    be in after a sequence of them. *)
Inductive Request : Type :=
  | Evaluate (body : EvaluateBody)
  | Update (id : positive) (body : UpdateBody)
  | Delete (id : positive).

Definition handle (r : Request) (w : World) : Response * World :=
  match r with
  | Evaluate body => postEvaluate body w
  | Update id body => putEssay id body w
  | Delete id => deleteEssay id w
  end.

Definition run (rs : list Request) (w : World) : World :=
  foldl (fun w r => snd (handle r w)) w rs.

Definition reachable (w : World) : Prop := exists rs, w = run rs initial.

End WithRandom.

End Server.


(** ** The vocabulary of the specification *)

Module Spec.

(** A text that the evaluate route accepts. *)
Definition accepted (text : string) : Prop := 10 <= Str.len (Str.trim text).

(** A random source whose outcomes lie in [0, 1), as [Math.random]'s do. *)
Definition fair (random : nat -> Q) : Prop :=
  forall k, (0 <= random k /\ random k < 1)%Q.

(** The score as the specification composes it: 70 plus three bonuses,
    then the perturbation, the clamp to [50, 98] and the rounding to one
    decimal place. *)
Definition lengthBonus (wordCount : Z) : Z :=
  if (300 <=? wordCount) && (wordCount <=? 800) then 10
  else if wordCount <? 100 then -15 else 0.

Definition sentenceBonus (avgSentenceLength : Num.number) : Z :=
  if Num.le (Num.Fin 15) avgSentenceLength && Num.le avgSentenceLength (Num.Fin 25)
  then 5 else 0.

Definition vocabularyBonus (vocabularyRichness : Num.number) : Z :=
  if Num.lt (Num.Fin (6 # 10)) vocabularyRichness then 8 else 0.

Definition baseScore (wordCount : Z) (avgSentenceLength vocabularyRichness : Num.number) : Z :=
  70 + lengthBonus wordCount + sentenceBonus avgSentenceLength
  + vocabularyBonus vocabularyRichness.

(** The vocabulary richness as the specification words it: the distinct
    case-folded tokens of the trimmed text over its number of tokens. *)
Definition vocabularyRichness (text : string) : Num.number :=
  let tokens := Str.split Str.isWhiteSpace (Str.trim text) in
  let distinct : gset string := list_to_set (Str.toLowerCase <$> tokens) in
  Num.div (Z.of_nat (size distinct)) (Z.of_nat (length tokens)).

(** The clamp to an interval and the rounding to one decimal place. *)
Definition clamp (lo hi x : Q) : Q :=
  if Qlt_le_dec x lo then lo else if Qlt_le_dec hi x then hi else x.

Definition roundTenth (x : Q) : Q :=
  (inject_Z (Qfloor (x * 10 + (1 # 2))) / 10)%Q.

Definition overallScore (base : Z) (perturbation : Q) : Q :=
  roundTenth (clamp 50 98 (inject_Z base + perturbation)%Q).

(** A body of the evaluate route whose text is absent or too short. *)
Definition textRejected (body : Server.EvaluateBody) : Prop :=
  match Server.ev_text body with
  | Some text => Str.len (Str.trim text) < 10
  | None => True
  end.

(** An update body with one field replaced. *)
Definition withText (o : option string) (b : Server.UpdateBody) : Server.UpdateBody :=
  {| Server.up_text := o; Server.up_university := Server.up_university b;
     Server.up_level := Server.up_level b; Server.up_status := Server.up_status b |}.

Definition withLevel (o : option string) (b : Server.UpdateBody) : Server.UpdateBody :=
  {| Server.up_text := Server.up_text b; Server.up_university := Server.up_university b;
     Server.up_level := o; Server.up_status := Server.up_status b |}.

Definition withStatus (o : option string) (b : Server.UpdateBody) : Server.UpdateBody :=
  {| Server.up_text := Server.up_text b; Server.up_university := Server.up_university b;
     Server.up_level := Server.up_level b; Server.up_status := o |}.

(** Sample inputs: an accepted text, the source whose every draw is 1/2,
    the source whose every draw is 0, and a source whose sixth draw is
    0.99. *)
Definition sampleText : string := "I like cats and dogs".
Definition half : nat -> Q := fun _ => (1 # 2)%Q.
Definition zero : nat -> Q := fun _ => 0%Q.
Definition sixthHigh : nat -> Q :=
  fun n => if Nat.eqb n 5 then (99 # 100)%Q else (1 # 2)%Q.

(** Sample requests: an evaluation of the sample text, the same with a
    level outside the schema's enumeration, updates that set only the
    text or only the status, and the update whose four fields are empty
    strings. *)
Definition evaluateSample : Server.EvaluateBody :=
  {| Server.ev_text := Some sampleText; Server.ev_university := None;
     Server.ev_level := None |}.

Definition evaluateSamplePhd : Server.EvaluateBody :=
  {| Server.ev_text := Some sampleText; Server.ev_university := None;
     Server.ev_level := Some "phd"%string |}.

Definition noUpdate : Server.UpdateBody :=
  {| Server.up_text := None; Server.up_university := None;
     Server.up_level := None; Server.up_status := None |}.

Definition setText (t : string) : Server.UpdateBody := withText (Some t) noUpdate.
Definition setStatus (t : string) : Server.UpdateBody := withStatus (Some t) noUpdate.

Definition emptyFields : Server.UpdateBody :=
  {| Server.up_text := Some ""%string; Server.up_university := Some ""%string;
     Server.up_level := Some ""%string; Server.up_status := Some ""%string |}.

(** The server after one evaluation of the sample text, and the document
    it then holds under the first id. *)
Definition oneEssay : Server.World :=
  snd (Server.postEvaluate half evaluateSample Server.initial).

Definition sampleEssay : Model.Essay :=
  Server.newEssay evaluateSample sampleText
    (fst (Engine.evaluateEssayAI half sampleText 0%nat)).

(** What every document stored through the routes satisfies: it carries an
    assessment and it passes the validators of the schema. *)
Definition wellFormed (e : Model.Essay) : Prop :=
  is_Some (Model.results e) /\ Model.validate e = true.

End Spec.

(** ** The read routes *)

Module Queries.

Import Model Server.

(** [GET /api/essays/:id] (lines 274-297). *)
Definition getEssay (id : positive) (w : World) : Response :=
  match essays w !! id with
  | Some essay => ok 200 (Some (id, essay))
  | None => failure 404 "Essay not found"
  end.

(** [parseInt(s)] without a radix: leading white space is skipped, a sign
    is read, the prefix [0x] or [0X] selects base 16, and the longest
    prefix of digits gives the value; [None] stands for NaN. *)
Definition digitValue (c : ascii) : option Z :=
  let n := Z.of_N (N_of_ascii c) in
  if (48 <=? n) && (n <=? 57) then Some (n - 48)
  else if (97 <=? n) && (n <=? 122) then Some (n - 87)
  else if (65 <=? n) && (n <=? 90) then Some (n - 55)
  else None.

Fixpoint digitsPrefix (radix : Z) (s : string) : list Z :=
  match s with
  | EmptyString => []
  | String c s' =>
      match digitValue c with
      | Some d => if d <? radix then d :: digitsPrefix radix s' else []
      | None => []
      end
  end.

Definition parseInt (s : string) : option Z :=
  let s := Str.trimStart s in
  let '(sign, s) :=
    match s with
    | String "-"%char r => (-1, r)
    | String "+"%char r => (1, r)
    | _ => (1, s)
    end in
  let '(radix, s) :=
    match s with
    | String "0"%char (String "x"%char r) => (16, r)
    | String "0"%char (String "X"%char r) => (16, r)
    | _ => (10, s)
    end in
  match digitsPrefix radix s with
  | [] => None
  | ds => Some (sign * foldl (fun acc d => acc * radix + d) 0 ds)
  end.

(** The query string of [GET /api/essays]. *)
Record ListQuery : Type := {
  q_page : option string;
  q_limit : option string;
  q_status : option string;
  q_level : option string;
  q_sortBy : option string;
  q_sortOrder : option string
}.

Record Pagination : Type := {
  page : Z;
  limit : Z;
  total : Z;
  pages : Z
}.

Record Listing : Type := {
  listed : list (positive * Essay);
  pagination : Pagination
}.

(** The filter object of lines 239-241, as a test on a document. *)
Definition matches (q : ListQuery) (e : Essay) : bool :=
  (if truthy (q_status q) then bool_decide (Some (status e) = q_status q) else true)
  && (if truthy (q_level q) then bool_decide (Some (level e) = q_level q) else true).

Definition found (q : ListQuery) (coll : gmap positive Essay)
  : list (positive * Essay) :=
  List.filter (fun d => matches q (snd d)) (map_to_list coll).

(** A page or limit parameter: the default when the query does not carry
    it, [parseInt] of it otherwise. *)
Definition intParam (o : option string) (d : Z) : option Z :=
  match o with
  | Some s => parseInt s
  | None => Some d
  end.

Section WithSort.

(** The order in which the store returns the documents of one request for
    a sort field and a direction ([true] for descending); the store may
    answer another request in another order. *)
Variable sortDocs : string -> bool -> list (positive * Essay) -> list (positive * Essay).

(** [GET /api/essays] (lines 228-272) for a page and a limit that are at
    least 1; [None] for the other values, whose handling by the store is
    not modelled. *)
Definition listEssays (q : ListQuery) (w : World) : option Listing :=
  match intParam (q_page q) 1, intParam (q_limit q) 10 with
  | Some p, Some l =>
      if (1 <=? p) && (1 <=? l) then
        let skip := (p - 1) * l in
        let desc := bool_decide (default "desc"%string (q_sortOrder q) = "desc"%string) in
        let sorted := sortDocs (default "createdAt"%string (q_sortBy q)) desc
                        (found q (essays w)) in
        let total := Z.of_nat (length (found q (essays w))) in
        Some {|
          listed := take (Z.to_nat l) (drop (Z.to_nat skip) sorted);
          pagination := {|
            page := p;
            limit := l;
            total := total;
            pages := Num.ceil (inject_Z total / inject_Z l)%Q |}
        |}
      else None
  | _, _ => None
  end.

End WithSort.

(** [GET /api/stats] (lines 407-435). *)
Record Stats : Type := {
  totalEssays : Z;
  averageScore : Q;
  byLevel : gmap string nat
}.

(** The values that [$match] and [$group] average: the overall scores of
    the documents that have one. *)
Definition scoresOf (coll : gmap positive Essay) : list Q :=
  omap (fun d => overallScore <$> results (snd d)) (map_to_list coll).

Definition sumQ (l : list Q) : Q := foldr Qplus 0%Q l.

(** [avgScore[0]?.avgScore || 0]: no group when no document has a score,
    and a zero average is replaced by 0. *)
Definition averageOf (l : list Q) : Q :=
  match l with
  | [] => 0%Q
  | _ =>
      let avg := (sumQ l / inject_Z (Z.of_nat (length l)))%Q in
      if Qeq_bool avg 0 then 0%Q else avg
  end.

(** [$group] by level with [$count]: one group per level that occurs. *)
Definition levelStats (coll : gmap positive Essay) : gmap string nat :=
  map_fold (fun _ e acc => <[level e := S (default 0%nat (acc !! level e))]> acc)
           ∅ coll.

Definition getStats (w : World) : Stats := {|
  totalEssays := Z.of_nat (size (essays w));
  averageScore := averageOf (scoresOf (essays w));
  byLevel := levelStats (essays w)
|}.

End Queries.

(** ** The frontend ([AIEssay.jsx]) *)

Module Frontend.

(** The counters shown under the editor (lines 159-160). *)
Definition wordCount (essayText : string) : Z :=
  Z.of_nat (length (List.filter (fun w => negb (String.eqb w ""))
                      (Str.split Str.isWhiteSpace (Str.trim essayText)))).

Definition charCount (essayText : string) : Z := Str.len essayText.

Record MockResults : Type := {
  overallScore : Q;
  breakdown : Engine.Breakdown;
  strengths : list string;
  improvements : list string;
  suggestions : list Engine.Suggestion;
  mockWordCount : Z;
  readability : string;
  estimatedReadTime : Z
}.

Definition mockStrengths : list string :=
  ["Strong thesis statement with clear positioning";
   "Effective use of transitional phrases";
   "Well-developed supporting arguments";
   "Appropriate academic tone maintained throughout"]%string.

Definition mockImprovements : list string :=
  ["Consider adding more specific examples to support main arguments";
   "The conclusion could more explicitly tie back to the thesis";
   "Some sentences are overly complex - simplify for clarity";
   "Add more varied sentence structures for better flow"]%string.

Definition mockSuggestions : list Engine.Suggestion :=
  [ {| Engine.original := "The impact of technology on education is significant.";
       Engine.improved := "Technology has fundamentally transformed educational methodologies, creating unprecedented opportunities for personalized learning.";
       Engine.reason := "More specific and impactful opening" |};
    {| Engine.original := "Many students use computers.";
       Engine.improved := "Contemporary students leverage digital devices as primary tools for research, collaboration, and knowledge acquisition.";
       Engine.reason := "Enhanced vocabulary and precision" |} ].

Section WithRandom.

Variable random : nat -> Q.

(** The mock evaluation of [evaluateEssay] (lines 84-138): nothing is
    computed for a blank text, otherwise the results that the timer
    callback stores. *)
Definition evaluateEssay (essayText : string) : Engine.Rand (option MockResults) :=
  if String.eqb (Str.trim essayText) "" then Engine.ret None
  else
    let wordCount :=
      Z.of_nat (length (Str.split Str.isWhiteSpace (Str.trim essayText))) in
    Engine.bind (Engine.Math_random random) (fun r =>
    let score := Num.min 95 (Num.max 60 (75 + r * 15))%Q in
    Engine.bind (Engine.Math_random random) (fun r1 =>
    Engine.bind (Engine.Math_random random) (fun r2 =>
    Engine.bind (Engine.Math_random random) (fun r3 =>
    Engine.bind (Engine.Math_random random) (fun r4 =>
    Engine.bind (Engine.Math_random random) (fun r5 =>
    Engine.ret (Some {|
      overallScore := score;
      breakdown := {|
        Engine.grammar := Num.min 100 (score + r1 * 10);
        Engine.structure := Num.min 100 (score + r2 * 8);
        Engine.coherence := Num.min 100 (score + r3 * 12);
        Engine.vocabulary := Num.min 100 (score + r4 * 10);
        Engine.arguments := Num.min 100 (score + r5 * 15) |}%Q;
      strengths := mockStrengths;
      improvements := mockImprovements;
      suggestions := mockSuggestions;
      mockWordCount := wordCount;
      readability := "College Level";
      estimatedReadTime := Num.ceil (inject_Z wordCount / 200)%Q
    |}))))))).

End WithRandom.

End Frontend.

(** ** Auxiliary vocabulary of the properties *)

Module Facts.

(** A non-empty string whose last character is not a separator. *)
Fixpoint endsOutside (sep : ascii -> bool) (s : string) : bool :=
  match s with
  | EmptyString => false
  | String c EmptyString => negb (sep c)
  | String _ s' => endsOutside sep s'
  end.

(** A string that starts with a character that is not a separator. *)
Definition startsOutside (sep : ascii -> bool) (s : string) : bool :=
  match s with
  | EmptyString => false
  | String c _ => negb (sep c)
  end.

(** The stored counts agree with the stored text. *)
Definition countsAgree (e : Model.Essay) : Prop :=
  Model.wordCount e = Engine.wordCountOf (Model.text e)
  /\ Model.charCount e = Str.len (Model.text e).

(** The stored assessment has its scores within their bounds. *)
Definition scoresBounded (e : Model.Essay) : Prop :=
  exists r : Model.Results,
    Model.results e = Some r
    /\ (50 <= Model.overallScore r /\ Model.overallScore r <= 98)%Q
    /\ (Engine.grammar (Model.breakdown r) <= 100
        /\ Engine.structure (Model.breakdown r) <= 100
        /\ Engine.coherence (Model.breakdown r) <= 100
        /\ Engine.vocabulary (Model.breakdown r) <= 100
        /\ Engine.arguments (Model.breakdown r) <= 100)%Q.

(** The number of documents of a level. *)
Definition levelCount (l : string) (coll : gmap positive Model.Essay) : nat :=
  size (filter (fun d => Model.level (snd d) = l) coll).

(** The page [k] (from 1) of a listing with [l] documents per page. *)
Definition pageOf (l : nat) (docs : list (positive * Model.Essay)) (k : nat)
  : list (positive * Model.Essay) :=
  take l (drop ((k - 1) * l) docs).

(** A query that asks for the page [k] of the listing of [q]. *)
Definition asksPage (q : Queries.ListQuery) (k : nat) (q' : Queries.ListQuery) : Prop :=
  Queries.intParam (Queries.q_page q') 1 = Some (Z.of_nat k)
  /\ Queries.q_limit q' = Queries.q_limit q
  /\ Queries.q_status q' = Queries.q_status q
  /\ Queries.q_level q' = Queries.q_level q
  /\ Queries.q_sortBy q' = Queries.q_sortBy q
  /\ Queries.q_sortOrder q' = Queries.q_sortOrder q.

(** The documents of a listing in the order of the store. *)
Definition sortedOf
    (sortDocs : string -> bool -> list (positive * Model.Essay)
                -> list (positive * Model.Essay))
    (q : Queries.ListQuery) (w : Server.World) : list (positive * Model.Essay) :=
  sortDocs (default "createdAt"%string (Queries.q_sortBy q))
    (bool_decide (default "desc"%string (Queries.q_sortOrder q) = "desc"%string))
    (Queries.found q (Server.essays w)).

(** A query for a page, with everything else absent. *)
Definition pageQuery (p l : string) : Queries.ListQuery :=
  {| Queries.q_page := Some p; Queries.q_limit := Some l;
     Queries.q_status := None; Queries.q_level := None;
     Queries.q_sortBy := None; Queries.q_sortOrder := None |}.

(** The order that leaves the documents as they come. *)
Definition unsorted : string -> bool -> list (positive * Model.Essay)
    -> list (positive * Model.Essay) :=
  fun _ _ docs => docs.

(** The order that reverses the documents. *)
Definition reversed : string -> bool -> list (positive * Model.Essay)
    -> list (positive * Model.Essay) :=
  fun _ _ docs => rev docs.

(** The server after two evaluations of the sample text. *)
Definition twoEssays : Server.World :=
  Server.run Spec.half
    [Server.Evaluate Spec.evaluateSample; Server.Evaluate Spec.evaluateSample]
    Server.initial.

(** The draws 0.5, 0.99, 0.99, ... of a source. *)
Definition highAfterFirst : nat -> Q :=
  fun n => if Nat.eqb n 0 then (1 # 2)%Q else (99 # 100)%Q.

End Facts.

(** * Properties *)

(** ** Helper lemmas on numbers *)

(** [lra] wants [x / 10] as a product with a constant. *)
Ltac tenths := unfold Qdiv; change (/ 10)%Q with (1 # 10)%Q.

(** Closed goals on concrete inputs are settled by evaluation. *)
Ltac evaluate :=
  vm_compute; first [reflexivity | discriminate | intro; discriminate].

Section NumFacts.

Local Open Scope Q_scope.

Lemma Qle_bool_false (a b : Q) : Qle_bool a b = false -> b < a.
Proof.
  intros H. apply Qnot_le_lt. intros Hle.
  apply Qle_bool_iff in Hle. congruence.
Qed.

Lemma Qlt_bool_true (a b : Q) : Num.Qlt_bool a b = true <-> a < b.
Proof.
  unfold Num.Qlt_bool. split.
  - intros H. apply Qle_bool_false. now destruct (Qle_bool b a).
  - intros H. destruct (Qle_bool b a) eqn:E; [|reflexivity].
    apply Qle_bool_iff in E. lra.
Qed.

Lemma min_spec (a b : Q) :
  (a <= b /\ Num.min a b = a) \/ (b < a /\ Num.min a b = b).
Proof.
  unfold Num.min. destruct (Qle_bool a b) eqn:E.
  - left. split; [now apply Qle_bool_iff | reflexivity].
  - right. split; [now apply Qle_bool_false | reflexivity].
Qed.

Lemma max_spec (a b : Q) :
  (a <= b /\ Num.max a b = b) \/ (b < a /\ Num.max a b = a).
Proof.
  unfold Num.max. destruct (Qle_bool a b) eqn:E.
  - left. split; [now apply Qle_bool_iff | reflexivity].
  - right. split; [now apply Qle_bool_false | reflexivity].
Qed.

Lemma min_le_l (a b : Q) : Num.min a b <= a.
Proof. destruct (min_spec a b) as [[H ->]|[H ->]]; lra. Qed.

Lemma clampedScore_range (baseScore : Z) (randomFactor : Q) :
  50 <= Engine.clampedScore baseScore randomFactor <= 98.
Proof.
  unfold Engine.clampedScore.
  destruct (min_spec 98 (inject_Z baseScore + randomFactor)) as [[H1 ->]|[H1 ->]];
    match goal with |- context [Num.max ?a ?b] =>
      destruct (max_spec a b) as [[H2 ->]|[H2 ->]] end; lra.
Qed.

(** [Math.round(x * 10) / 10] of a score in [50, 98] is in [50, 98]. *)
Lemma round_tenth_range (x : Q) :
  50 <= x <= 98 -> 50 <= inject_Z (Num.round (x * 10)) / 10 <= 98.
Proof.
  intros [Hlo Hhi]. unfold Num.round.
  pose proof (Qfloor_le (x * 10 + (1 # 2))) as Hle.
  pose proof (Qlt_floor (x * 10 + (1 # 2))) as Hlt.
  set (n := Qfloor (x * 10 + (1 # 2))) in *. clearbody n.
  assert (H1 : (500 < n + 1)%Z).
  { rewrite Zlt_Qlt. change (inject_Z 500) with 500. lra. }
  assert (H2 : (n < 981)%Z).
  { rewrite Zlt_Qlt. change (inject_Z 981) with 981. lra. }
  assert (H3 : inject_Z 500 <= inject_Z n) by (rewrite <- Zle_Qle; lia).
  assert (H4 : inject_Z n <= inject_Z 980) by (rewrite <- Zle_Qle; lia).
  change (inject_Z 500) with 500 in H3. change (inject_Z 980) with 980 in H4.
  tenths. lra.
Qed.

(** Rounding to one decimal moves a value by at most 0.05. *)
Lemma round_tenth_close (x : Q) :
  x - (1 # 20) < inject_Z (Num.round (x * 10)) / 10 <= x + (1 # 20).
Proof.
  unfold Num.round.
  pose proof (Qfloor_le (x * 10 + (1 # 2))) as Hle.
  pose proof (Qlt_floor (x * 10 + (1 # 2))) as Hlt.
  rewrite inject_Z_plus in Hlt. change (inject_Z 1) with 1 in Hlt.
  set (n := inject_Z (Qfloor (x * 10 + (1 # 2)))) in *. clearbody n.
  tenths. lra.
Qed.

End NumFacts.

(** ** Helper lemmas on strings *)

Section StrFacts.

Lemma split_nonempty (sep : ascii -> bool) (s : string) : Str.split sep s <> [].
Proof.
  induction s as [|c s IH]; simpl; [discriminate|].
  destruct (sep c).
  - destruct s as [|c' s']; [discriminate|].
    destruct (sep c'); [exact IH | discriminate].
  - destruct (Str.split sep s); discriminate.
Qed.

Lemma split_length_pos (sep : ascii -> bool) (s : string) :
  (1 <= length (Str.split sep s))%nat.
Proof.
  pose proof (split_nonempty sep s) as H.
  destruct (Str.split sep s); [congruence | simpl; lia].
Qed.

Lemma trimStart_length (s : string) :
  (String.length (Str.trimStart s) <= String.length s)%nat.
Proof.
  induction s as [|c s IH]; simpl; [lia|].
  destruct (Str.isWhiteSpace c); simpl; lia.
Qed.

Lemma trimEnd_length (s : string) :
  (String.length (Str.trimEnd s) <= String.length s)%nat.
Proof.
  induction s as [|c s IH]; simpl; [lia|].
  destruct (Str.trimEnd s) eqn:E.
  - destruct (Str.isWhiteSpace c); simpl; lia.
  - simpl in *. lia.
Qed.

Lemma trim_len (s : string) : Str.len (Str.trim s) <= Str.len s.
Proof.
  unfold Str.len, Str.trim.
  pose proof (trimEnd_length (Str.trimStart s)).
  pose proof (trimStart_length s). lia.
Qed.

End StrFacts.

(** ** The equations of [evaluateEssayAI] *)

Section EngineEquations.

Variable random : nat -> Q.
Variable essayText : string.
Variable k : nat.

Local Open Scope Q_scope.

Let s : Q := Engine.clampedScore (Engine.baseScoreOf essayText) (random k * 12 - 6).

Lemma eval_overallScore :
  Engine.overallScore (fst (Engine.evaluateEssayAI random essayText k))
  = inject_Z (Num.round (s * 10)) / 10.
Proof. reflexivity. Qed.

Lemma eval_breakdown :
  Engine.breakdown (fst (Engine.evaluateEssayAI random essayText k))
  = {| Engine.grammar := Num.min 100 (s + (random (k + 1)%nat * 10 - 5));
       Engine.structure := Num.min 100 (s + (random (k + 2)%nat * 8 - 4));
       Engine.coherence := Num.min 100 (s + (random (k + 3)%nat * 12 - 6));
       Engine.vocabulary := Num.min 100 (s + (random (k + 4)%nat * 10 - 5));
       Engine.arguments := Num.min 100 (s + (random (k + 5)%nat * 15 - 7)) |}.
Proof.
  replace (k + 1)%nat with (S k) by lia.
  replace (k + 2)%nat with (S (S k)) by lia.
  replace (k + 3)%nat with (S (S (S k))) by lia.
  replace (k + 4)%nat with (S (S (S (S k)))) by lia.
  replace (k + 5)%nat with (S (S (S (S (S k))))) by lia.
  reflexivity.
Qed.

Lemma eval_draws :
  snd (Engine.evaluateEssayAI random essayText k) = (k + 6)%nat.
Proof.
  replace (k + 6)%nat with (S (S (S (S (S (S k)))))) by lia. reflexivity.
Qed.

Lemma eval_counts :
  Engine.wordCount (fst (Engine.evaluateEssayAI random essayText k))
    = Engine.wordCountOf essayText
  /\ Engine.charCount (fst (Engine.evaluateEssayAI random essayText k))
    = Str.len essayText.
Proof. split; reflexivity. Qed.

End EngineEquations.
(** ** The scorer *)

Section Scorer.

Local Open Scope Q_scope.

Lemma perturbation_range (r w h lo hi : Q) :
  0 <= r -> r < 1 -> 0 < w -> lo == - h -> hi == w - h ->
  lo <= r * w - h /\ r * w - h < hi.
Proof. intros H0 H1 Hw Hlo Hhi. split; nra. Qed.

Lemma clamp_agrees (y : Q) :
  Num.max 50 (Num.min 98 y) == Spec.clamp 50 98 y.
Proof.
  unfold Spec.clamp.
  destruct (min_spec 98 y) as [[H1 ->]|[H1 ->]];
    match goal with |- context [Num.max ?a ?b] =>
      destruct (max_spec a b) as [[H2 ->]|[H2 ->]] end;
    destruct (Qlt_le_dec y 50); try destruct (Qlt_le_dec 98 y); lra.
Qed.

Lemma baseScore_agrees (text : string) :
  Engine.baseScoreOf text
  = Spec.baseScore (Engine.wordCountOf text) (Engine.avgSentenceLengthOf text)
      (Engine.vocabularyRichnessOf text).
Proof.
  unfold Engine.baseScoreOf, Spec.baseScore, Spec.lengthBonus,
    Spec.sentenceBonus, Spec.vocabularyBonus, Num.ge, Num.gt.
  destruct ((300 <=? Engine.wordCountOf text)%Z && (Engine.wordCountOf text <=? 800)%Z);
    [|destruct (Engine.wordCountOf text <? 100)%Z];
    destruct (Num.le (Num.Fin 15) (Engine.avgSentenceLengthOf text)
              && Num.le (Engine.avgSentenceLengthOf text) (Num.Fin 25));
    destruct (Num.lt (Num.Fin (6 # 10)) (Engine.vocabularyRichnessOf text));
    reflexivity.
Qed.

(** C1. For every accepted text and every sequence of draws, the returned
    overallScore lies in [50, 98] and is a multiple of one tenth, and each
    of the five breakdown values is at most 100. *)
Theorem overallScore_range_breakdown_capped
    (random : nat -> Q) (text : string) (k : nat) :
  Spec.accepted text -> Spec.fair random ->
  let r := fst (Engine.evaluateEssayAI random text k) in
  50 <= Engine.overallScore r <= 98
  /\ (exists n : Z, Engine.overallScore r = inject_Z n / 10)
  /\ Engine.grammar (Engine.breakdown r) <= 100
  /\ Engine.structure (Engine.breakdown r) <= 100
  /\ Engine.coherence (Engine.breakdown r) <= 100
  /\ Engine.vocabulary (Engine.breakdown r) <= 100
  /\ Engine.arguments (Engine.breakdown r) <= 100.
Proof.
  intros _ _ r. subst r. rewrite eval_overallScore, eval_breakdown. simpl.
  split; [apply round_tenth_range, clampedScore_range|].
  split; [eexists; reflexivity|].
  repeat split; apply min_le_l.
Qed.

(** C2. The overallScore of an accepted text is the specification's
    composition: 70, the length bonus or penalty, the sentence-length
    bonus, the vocabulary bonus, one perturbation in [-6, 6), the clamp
    to [50, 98] and the rounding to one decimal place. *)
Theorem overallScore_composition
    (random : nat -> Q) (text : string) (k : nat) :
  Spec.accepted text -> Spec.fair random ->
  let r := fst (Engine.evaluateEssayAI random text k) in
  let d := random k * 12 - 6 in
  Engine.baseScoreOf text
    = Spec.baseScore (Engine.wordCountOf text) (Engine.avgSentenceLengthOf text)
        (Engine.vocabularyRichnessOf text)
  /\ (-6 <= d /\ d < 6)
  /\ Engine.overallScore r = Spec.overallScore (Engine.baseScoreOf text) d.
Proof.
  intros _ Hfair r d. subst r d.
  split; [apply baseScore_agrees|].
  split; [destruct (Hfair k); apply perturbation_range; lra|].
  rewrite eval_overallScore.
  unfold Spec.overallScore, Spec.roundTenth, Num.round, Engine.clampedScore.
  f_equal. f_equal. apply Qfloor_comp.
  rewrite clamp_agrees. reflexivity.
Qed.

(** C3, as the code has it. Each breakdown value is min(100, s + d), where
    s is the clamped score before it is rounded to one decimal place (the
    returned overallScore is within 0.05 of it) and d comes from a draw of
    its own: within [-5, 5) for grammar, [-4, 4) for structure, [-6, 6) for
    coherence, [-5, 5) for vocabulary and [-7, 8) for arguments. *)
Theorem breakdown_perturbations
    (random : nat -> Q) (text : string) (k : nat) :
  Spec.accepted text -> Spec.fair random ->
  let r := fst (Engine.evaluateEssayAI random text k) in
  let s := Engine.clampedScore (Engine.baseScoreOf text) (random k * 12 - 6) in
  let d1 := random (k + 1)%nat * 10 - 5 in
  let d2 := random (k + 2)%nat * 8 - 4 in
  let d3 := random (k + 3)%nat * 12 - 6 in
  let d4 := random (k + 4)%nat * 10 - 5 in
  let d5 := random (k + 5)%nat * 15 - 7 in
  (Engine.grammar (Engine.breakdown r) = Num.min 100 (s + d1) /\ -5 <= d1 /\ d1 < 5)
  /\ (Engine.structure (Engine.breakdown r) = Num.min 100 (s + d2) /\ -4 <= d2 /\ d2 < 4)
  /\ (Engine.coherence (Engine.breakdown r) = Num.min 100 (s + d3) /\ -6 <= d3 /\ d3 < 6)
  /\ (Engine.vocabulary (Engine.breakdown r) = Num.min 100 (s + d4) /\ -5 <= d4 /\ d4 < 5)
  /\ (Engine.arguments (Engine.breakdown r) = Num.min 100 (s + d5) /\ -7 <= d5 /\ d5 < 8)
  /\ Engine.overallScore r = Spec.roundTenth s
  /\ (s - (1 # 20) < Engine.overallScore r /\ Engine.overallScore r <= s + (1 # 20)).
Proof.
  intros _ Hfair r s d1 d2 d3 d4 d5. subst r d1 d2 d3 d4 d5.
  rewrite eval_overallScore, eval_breakdown. simpl. fold s.
  pose proof (Hfair (k + 1)%nat) as [? ?]. pose proof (Hfair (k + 2)%nat) as [? ?].
  pose proof (Hfair (k + 3)%nat) as [? ?]. pose proof (Hfair (k + 4)%nat) as [? ?].
  pose proof (Hfair (k + 5)%nat) as [? ?].
  repeat match goal with
         | |- _ /\ _ => split
         | |- ?x = ?x => reflexivity
         end;
    try lra; try apply round_tenth_close.
  reflexivity.
Qed.

End Scorer.

Section ScorerOnInputs.

Local Open Scope Q_scope.

Lemma sampleText_accepted : Spec.accepted Spec.sampleText.
Proof. evaluate. Qed.

Lemma half_fair : Spec.fair Spec.half.
Proof. intros n. split; evaluate. Qed.

Lemma sixthHigh_fair : Spec.fair Spec.sixthHigh.
Proof.
  intros n. unfold Spec.sixthHigh. destruct (Nat.eqb n 5); split; evaluate.
Qed.

Lemma overallScore_range_breakdown_capped_witness :
  let r := fst (Engine.evaluateEssayAI Spec.half Spec.sampleText 0%nat) in
  50 <= Engine.overallScore r <= 98
  /\ (exists n : Z, Engine.overallScore r = inject_Z n / 10)
  /\ Engine.grammar (Engine.breakdown r) <= 100
  /\ Engine.structure (Engine.breakdown r) <= 100
  /\ Engine.coherence (Engine.breakdown r) <= 100
  /\ Engine.vocabulary (Engine.breakdown r) <= 100
  /\ Engine.arguments (Engine.breakdown r) <= 100.
Proof.
  apply (overallScore_range_breakdown_capped Spec.half Spec.sampleText 0%nat).
  - vm_compute; discriminate.
  - intros n; split; vm_compute; [discriminate | reflexivity].
Defined.

Lemma overallScore_composition_witness :
  Engine.overallScore (fst (Engine.evaluateEssayAI Spec.half Spec.sampleText 0%nat))
  = Spec.overallScore (Engine.baseScoreOf Spec.sampleText) (Spec.half 0%nat * 12 - 6).
Proof.
  apply (overallScore_composition Spec.half Spec.sampleText 0%nat).
  - vm_compute; discriminate.
  - intros n; split; vm_compute; [discriminate | reflexivity].
Defined.

Lemma breakdown_perturbations_witness :
  let r := fst (Engine.evaluateEssayAI Spec.sixthHigh Spec.sampleText 0%nat) in
  let s := Engine.clampedScore (Engine.baseScoreOf Spec.sampleText)
             (Spec.sixthHigh 0%nat * 12 - 6) in
  let d5 := Spec.sixthHigh 5%nat * 15 - 7 in
  Engine.arguments (Engine.breakdown r) = Num.min 100 (s + d5)
  /\ -7 <= d5 /\ d5 < 8.
Proof.
  apply (breakdown_perturbations Spec.sixthHigh Spec.sampleText 0%nat).
  - vm_compute; discriminate.
  - intros n; unfold Spec.sixthHigh; destruct (Nat.eqb n 5); split; vm_compute;
      first [discriminate | reflexivity].
Defined.

(** C3 fails as stated: with the sixth draw at 0.99 the arguments value is
    70.85 while overallScore is 63, so no perturbation in [-7, 7) explains
    it. *)
Lemma arguments_perturbation_exceeds_seven :
  let r := fst (Engine.evaluateEssayAI Spec.sixthHigh Spec.sampleText 0%nat) in
  Spec.accepted Spec.sampleText /\ Spec.fair Spec.sixthHigh
  /\ ~ (exists d : Q, -7 <= d /\ d < 7
          /\ Engine.arguments (Engine.breakdown r)
             == Num.min 100 (Engine.overallScore r + d)).
Proof.
  intros r. split; [exact sampleText_accepted|]. split; [exact sixthHigh_fair|].
  intros [d (Hlo & Hhi & Heq)].
  assert (Ha : Engine.arguments (Engine.breakdown r) == 7085 # 100) by evaluate.
  assert (Ho : Engine.overallScore r == 63) by evaluate.
  rewrite Ha in Heq.
  destruct (min_spec 100 (Engine.overallScore r + d)) as [[H1 H2]|[H1 H2]];
    rewrite H2 in Heq; lra.
Qed.

End ScorerOnInputs.

(** ** The feature extractor *)

Section Extractor.

Lemma wordCountOf_pos (text : string) : 1 <= Engine.wordCountOf text.
Proof.
  unfold Engine.wordCountOf.
  pose proof (split_length_pos Str.isWhiteSpace (Str.trim text)). lia.
Qed.

(** C4, as the code has it. The sentence count is the number of fragments
    of the split on runs of '.', '!', '?' that are not blank, and it can be
    zero; wordCount is at least 1, so the quotient wordCount / sentenceCount
    is the finite ratio when a fragment remains and +Infinity (never NaN)
    when none does, in which case no sentence-length bonus is given. *)
Theorem sentence_count_and_average (text : string) :
  Spec.accepted text ->
  let n := Z.of_nat (length (Engine.sentencesOf text)) in
  Engine.sentencesOf text
    = List.filter (fun s => 0 <? Str.len (Str.trim s))
        (Str.split Str.isSentenceEnd text)
  /\ 1 <= Engine.wordCountOf text
  /\ (0 < n ->
      Engine.avgSentenceLengthOf text
      = Num.Fin (inject_Z (Engine.wordCountOf text) / inject_Z n)%Q)
  /\ (n = 0 ->
      Engine.avgSentenceLengthOf text = Num.PosInfinity
      /\ Spec.sentenceBonus (Engine.avgSentenceLengthOf text) = 0)
  /\ Engine.avgSentenceLengthOf text <> Num.NaN.
Proof.
  intros _ n. pose proof (wordCountOf_pos text) as Hw.
  assert (Hdiv0 : n = 0 -> Engine.avgSentenceLengthOf text = Num.PosInfinity).
  { intros Hn. unfold Engine.avgSentenceLengthOf, Num.div. fold n. rewrite Hn.
    simpl. destruct (Engine.wordCountOf text =? 0) eqn:E0; [lia|].
    destruct (0 <? Engine.wordCountOf text) eqn:E1; [reflexivity | lia]. }
  assert (Hdiv : 0 < n -> Engine.avgSentenceLengthOf text
      = Num.Fin (inject_Z (Engine.wordCountOf text) / inject_Z n)%Q).
  { intros Hn. unfold Engine.avgSentenceLengthOf, Num.div. fold n.
    destruct (n =? 0) eqn:E; [lia | reflexivity]. }
  split; [reflexivity|]. split; [exact Hw|]. split; [exact Hdiv|].
  split.
  - intros Hn. rewrite (Hdiv0 Hn). split; reflexivity.
  - destruct (Z.eq_dec n 0) as [Hn|Hn].
    + rewrite (Hdiv0 Hn). discriminate.
    + rewrite Hdiv by lia. discriminate.
Qed.

Lemma sentence_count_and_average_witness :
  Engine.avgSentenceLengthOf Spec.sampleText = Num.Fin (inject_Z 5 / inject_Z 1)%Q.
Proof.
  apply (sentence_count_and_average Spec.sampleText).
  - vm_compute; discriminate.
  - reflexivity.
Defined.

(** C4 fails as stated: a text of ten dots is accepted, none of its
    fragments is kept, and the division is by zero. *)
Lemma ten_dots_zero_sentences :
  Spec.accepted ".........."
  /\ ~ (1 <= length (Engine.sentencesOf ".........."))%nat
  /\ Engine.avgSentenceLengthOf ".........." = Num.PosInfinity.
Proof.
  split; [evaluate|]. split; [|reflexivity].
  vm_compute. lia.
Qed.

Lemma isWhiteSpace_toLowerChar (c : ascii) :
  Str.isWhiteSpace (Str.toLowerChar c) = Str.isWhiteSpace c.
Proof. destruct c as [[] [] [] [] [] [] [] []]; vm_compute; reflexivity. Qed.

Lemma split_toLowerCase (s : string) :
  Str.split Str.isWhiteSpace (Str.toLowerCase s)
  = Str.toLowerCase <$> Str.split Str.isWhiteSpace s.
Proof.
  induction s as [|c s IH]; [reflexivity|].
  cbn [Str.toLowerCase Str.split]. rewrite isWhiteSpace_toLowerChar.
  destruct (Str.isWhiteSpace c).
  - destruct s as [|c' s']; [reflexivity|].
    cbn [Str.toLowerCase] in *. rewrite isWhiteSpace_toLowerChar.
    destruct (Str.isWhiteSpace c'); rewrite IH; reflexivity.
  - rewrite IH. destruct (Str.split Str.isWhiteSpace s); reflexivity.
Qed.

(** Where the code and the specification of the vocabulary richness agree:
    on every text without leading or trailing white space. *)
Lemma vocabularyRichness_of_trimmed_text (text : string) :
  Str.trim text = text ->
  Engine.vocabularyRichnessOf text = Spec.vocabularyRichness text.
Proof.
  intros Htrim. unfold Engine.vocabularyRichnessOf, Spec.vocabularyRichness,
    Engine.wordsOf.
  rewrite Htrim, split_toLowerCase, length_fmap. reflexivity.
Qed.

(** C5 on a concrete pair of texts. The tokens behind vocabularyRichness
    come from the untrimmed text: a trailing space adds an empty token, so
    "aa aa aa bb cc " has richness 4/6 and earns the vocabulary bonus while
    its trimmed form has richness 3/5 and does not, although both have the
    same five words. *)
Lemma vocabularyRichness_changes_with_trailing_space :
  Spec.accepted "aa aa aa bb cc "
  /\ Str.trim "aa aa aa bb cc " = "aa aa aa bb cc"%string
  /\ Engine.wordCountOf "aa aa aa bb cc " = 5
  /\ Engine.wordsOf "aa aa aa bb cc " = ["aa"; "aa"; "aa"; "bb"; "cc"; ""]%string
  /\ Engine.vocabularyRichnessOf "aa aa aa bb cc " = Num.Fin (4 # 6)
  /\ Spec.vocabularyRichness "aa aa aa bb cc " = Num.Fin (3 # 5)
  /\ Engine.vocabularyRichnessOf "aa aa aa bb cc" = Num.Fin (3 # 5)
  /\ Engine.baseScoreOf "aa aa aa bb cc " = 63
  /\ Engine.baseScoreOf "aa aa aa bb cc" = 55.
Proof. repeat split; evaluate. Qed.

End Extractor.

(** ** The fixed random source *)

Section FixedSource.

Local Open Scope Q_scope.

Lemma eval_constant_source (random : nat -> Q) (c : Q) (text : string) (k : nat) :
  (forall n, random n = c) ->
  fst (Engine.evaluateEssayAI random text k)
  = fst (Engine.evaluateEssayAI (fun _ => c) text 0%nat).
Proof.
  intros H.
  unfold Engine.evaluateEssayAI, Engine.bind, Engine.ret, Engine.Math_random.
  cbn [fst snd]. rewrite !H. reflexivity.
Qed.

(** C7, as the code has it. With every draw equal to 0, the text
    "word ".repeat(60) has 60 words, so the length penalty gives
    baseScore = 70 - 15 = 55 with no other bonus; the perturbation is
    0 * 12 - 6 = -6, the sum 49 is clamped, and overallScore is 50; every
    evaluation of the text returns the same result. *)
Theorem sixty_words_zero_source (random : nat -> Q) (k : nat) :
  (forall n, random n = 0) ->
  let text := Str.repeat "word " 60 in
  let r := fst (Engine.evaluateEssayAI random text k) in
  Engine.wordCountOf text = 60%Z
  /\ Engine.baseScoreOf text = 55%Z
  /\ random k * 12 - 6 == -6
  /\ Engine.overallScore r == 50
  /\ (forall k', fst (Engine.evaluateEssayAI random text k') = r).
Proof.
  intros H text r. subst r.
  split; [evaluate|]. split; [evaluate|].
  split; [rewrite H; reflexivity|].
  split.
  - rewrite (eval_constant_source random 0 text k H). evaluate.
  - intros k'. rewrite (eval_constant_source random 0 text k H).
    apply eval_constant_source, H.
Qed.

Lemma sixty_words_zero_source_witness :
  Engine.overallScore
    (fst (Engine.evaluateEssayAI Spec.zero (Str.repeat "word " 60) 0%nat)) == 50.
Proof.
  apply (sixty_words_zero_source Spec.zero 0%nat).
  intros n. reflexivity.
Defined.

(** C7 fails as stated: the text has 60 words, not 300, and its baseScore
    is 55, not 80 or more. *)
Lemma sixty_words_baseScore_not_80 :
  Engine.wordCountOf (Str.repeat "word " 60) = 60%Z
  /\ ~ (80 <= Engine.baseScoreOf (Str.repeat "word " 60))%Z.
Proof.
  split; [evaluate|].
  assert (E : Engine.baseScoreOf (Str.repeat "word " 60) = 55%Z) by evaluate.
  rewrite E. lia.
Qed.

End FixedSource.

(** ** The routes *)

Section Routes.

Import Model Server.

Variable random : nat -> Q.

Lemma accepted_nonempty (text : string) :
  Spec.accepted text -> String.eqb text "" = false.
Proof.
  destruct text; [|reflexivity].
  unfold Spec.accepted. simpl. unfold Str.len. simpl. lia.
Qed.

Lemma accepted_validText (text : string) :
  Spec.accepted text -> validText text = true.
Proof.
  unfold Spec.accepted, validText. intros H.
  pose proof (trim_len text). lia.
Qed.

Lemma fresh_lookup (coll : gmap positive Essay) : coll !! fresh (dom coll) = None.
Proof. apply not_elem_of_dom, is_fresh. Qed.

Lemma postEvaluate_rejected (body : EvaluateBody) (w : World) :
  Spec.textRejected body ->
  postEvaluate random body w
  = (failure 400 "Essay text must be at least 10 characters long", w).
Proof.
  unfold Spec.textRejected, postEvaluate.
  destruct (ev_text body) as [text|]; [|reflexivity].
  intros H. destruct (String.eqb text ""); [reflexivity|]. simpl.
  destruct (Z.ltb_spec (Str.len (Str.trim text)) 10); [reflexivity | lia].
Qed.

Lemma postEvaluate_accepted (body : EvaluateBody) (w : World) (text : string) :
  ev_text body = Some text -> Spec.accepted text ->
  postEvaluate random body w
  = let results := fst (Engine.evaluateEssayAI random text (draws w)) in
    let k := snd (Engine.evaluateEssayAI random text (draws w)) in
    let essay := newEssay body text results in
    match save essay (essays w) with
    | Some (id, coll) =>
        (ok 201 (Some (id, essay)), {| essays := coll; draws := k |})
    | None =>
        (failure 500 "Failed to evaluate essay", {| essays := essays w; draws := k |})
    end.
Proof.
  intros Ht Hacc. unfold postEvaluate. rewrite Ht.
  rewrite (accepted_nonempty text Hacc). simpl.
  destruct (Z.ltb_spec (Str.len (Str.trim text)) 10) as [Hlt|_];
    [unfold Spec.accepted in Hacc; lia|].
  destruct (Engine.evaluateEssayAI random text (draws w)) as [results k].
  reflexivity.
Qed.

Lemma validate_newEssay (body : EvaluateBody) (text : string)
    (results : Engine.Evaluation) :
  Spec.accepted text ->
  validate (newEssay body text results)
  = validLevel (orElse (ev_level body) "undergrad").
Proof.
  intros Hacc. unfold validate, newEssay. simpl.
  rewrite (accepted_validText text Hacc). simpl.
  apply andb_true_r.
Qed.

(** C6, as the code has it. A body whose text is absent or shorter than 10
    characters after trimming is answered with 400 and the server is left
    as it was. A body with an accepted text and a level that is absent,
    empty, 'undergrad' or 'mba' creates exactly one document under a new
    id: it carries the text, the counts, the assessment of the engine and
    the status 'evaluated', and it is returned with 201. With any other
    level the schema rejects the document: the answer is 500 and the
    collection is left as it was. *)
Theorem evaluate_route (body : EvaluateBody) (w : World) :
  (Spec.textRejected body ->
   postEvaluate random body w
   = (failure 400 "Essay text must be at least 10 characters long", w))
  /\ (forall text : string,
      ev_text body = Some text -> Spec.accepted text ->
      let results := fst (Engine.evaluateEssayAI random text (draws w)) in
      let essay := newEssay body text results in
      let resp := fst (postEvaluate random body w) in
      let w' := snd (postEvaluate random body w) in
      (validLevel (orElse (ev_level body) "undergrad") = true ->
       exists id : positive,
         resp = ok 201 (Some (id, essay))
         /\ essays w !! id = None
         /\ essays w' = <[id := essay]> (essays w)
         /\ size (essays w') = S (size (essays w))
         /\ Model.text essay = text
         /\ wordCount essay = Engine.wordCountOf text
         /\ charCount essay = Str.len text
         /\ Model.results essay = Some (castResults results)
         /\ status essay = "evaluated"%string)
      /\ (validLevel (orElse (ev_level body) "undergrad") = false ->
          httpStatus resp = 500 /\ essays w' = essays w)).
Proof.
  split; [apply postEvaluate_rejected|].
  intros text Ht Hacc results essay resp w'. subst resp w'.
  rewrite (postEvaluate_accepted body w text Ht Hacc). cbv zeta. fold results.
  unfold save. rewrite (validate_newEssay body text results Hacc). fold essay.
  split; intros Hlevel; rewrite Hlevel; simpl.
  - exists (fresh (dom (essays w))).
    pose proof (fresh_lookup (essays w)) as Hfresh.
    repeat split; try reflexivity; try assumption.
    now apply map_size_insert_None.
  - split; reflexivity.
Qed.

End Routes.

Lemma evaluate_route_witness :
  exists id : positive,
    fst (Server.postEvaluate Spec.half Spec.evaluateSample Server.initial)
    = Server.ok 201
        (Some (id, Server.newEssay Spec.evaluateSample Spec.sampleText
                     (fst (Engine.evaluateEssayAI Spec.half Spec.sampleText 0%nat)))).
Proof.
  destruct (evaluate_route Spec.half Spec.evaluateSample Server.initial) as [_ H].
  destruct (H Spec.sampleText eq_refl ltac:(vm_compute; discriminate)) as [Hok _].
  destruct (Hok ltac:(vm_compute; reflexivity)) as [id Hid].
  exists id. apply Hid.
Defined.

(** C6 fails as stated: an accepted text sent with the level 'phd' is
    answered with 500 and nothing is stored. *)
Lemma evaluate_with_unknown_level_rejected :
  Spec.accepted Spec.sampleText
  /\ Server.httpStatus
       (fst (Server.postEvaluate Spec.half Spec.evaluateSamplePhd Server.initial))
     = 500
  /\ Server.essays
       (snd (Server.postEvaluate Spec.half Spec.evaluateSamplePhd Server.initial))
     = Server.essays Server.initial.
Proof. repeat split; evaluate. Qed.

(** ** Updates *)

Section Updates.

Import Model Server.

Lemma truthy_Some (s : string) : truthy (Some s) = true -> s <> ""%string.
Proof.
  unfold truthy. intros H ->. discriminate.
Qed.

Lemma truthy_of_nonempty (s : string) : s <> ""%string -> truthy (Some s) = true.
Proof.
  unfold truthy. intros H. destruct (String.eqb_spec s ""); [contradiction | reflexivity].
Qed.

(** What [findByIdAndUpdate] leaves at every id: the document as it was
    when the update is rejected or aimed at another id, the updated
    document otherwise. *)
Lemma putEssay_lookup (id : positive) (body : UpdateBody) (w : World) (id' : positive) :
  essays (snd (putEssay id body w)) !! id'
  = if validateUpdate (updateDataOf body) && bool_decide (id = id')
    then applyUpdate (updateDataOf body) <$> essays w !! id'
    else essays w !! id'.
Proof.
  unfold putEssay, findByIdAndUpdate.
  destruct (validateUpdate (updateDataOf body)); simpl; [|reflexivity].
  case_bool_decide as Hid.
  - subst id'. destruct (essays w !! id) as [e|] eqn:E; simpl.
    + now rewrite lookup_insert_eq.
    + now rewrite E.
  - destruct (essays w !! id) as [e|] eqn:E; simpl; [|reflexivity].
    now rewrite lookup_insert_ne.
Qed.

Lemma putEssay_draws (id : positive) (body : UpdateBody) (w : World) :
  draws (snd (putEssay id body w)) = draws w.
Proof.
  unfold putEssay, findByIdAndUpdate.
  destruct (validateUpdate (updateDataOf body)); [|reflexivity].
  destruct (essays w !! id); reflexivity.
Qed.

(** No update touches an assessment. *)
Lemma putEssay_keeps_results (id : positive) (body : UpdateBody) (w : World)
    (id' : positive) :
  results <$> essays (snd (putEssay id body w)) !! id'
  = results <$> essays w !! id'.
Proof.
  rewrite putEssay_lookup.
  destruct (validateUpdate (updateDataOf body) && bool_decide (id = id'));
    [|reflexivity].
  now destruct (essays w !! id').
Qed.

(** C8, as the code has it. An update of a stored submission with a
    non-empty text that passes the schema's update validators (the text
    has at least 10 characters, and a level or status, if given, is in its
    enumeration) is answered with 200: it stores the text, the number of
    whitespace-delimited tokens of the trimmed text and the length of the
    text. It leaves the assessment as it was and draws nothing from the
    random source; no update at all changes an assessment. *)
Theorem update_text_recomputes_counts
    (id : positive) (body : UpdateBody) (w : World) (e : Essay) (t : string) :
  essays w !! id = Some e ->
  up_text body = Some t -> t <> ""%string ->
  validateUpdate (updateDataOf body) = true ->
  (exists e' : Essay,
     fst (putEssay id body w) = ok 200 (Some (id, e'))
     /\ essays (snd (putEssay id body w)) !! id = Some e'
     /\ text e' = t
     /\ wordCount e' = Z.of_nat (length (Str.split Str.isWhiteSpace (Str.trim t)))
     /\ charCount e' = Str.len t
     /\ results e' = results e)
  /\ 10 <= Str.len t
  /\ draws (snd (putEssay id body w)) = draws w
  /\ (forall id' : positive,
        results <$> essays (snd (putEssay id body w)) !! id'
        = results <$> essays w !! id').
Proof.
  intros He Ht Hne Hvalid.
  assert (Hupd : set_text (updateDataOf body) = Some t
                 /\ set_wordCount (updateDataOf body)
                    = Some (Z.of_nat (length (Str.split Str.isWhiteSpace (Str.trim t))))
                 /\ set_charCount (updateDataOf body) = Some (Str.len t)).
  { unfold updateDataOf. simpl. rewrite Ht, (truthy_of_nonempty t Hne).
    repeat split. }
  destruct Hupd as (Htext & Hwc & Hcc).
  split; [|split; [|split]].
  - exists (applyUpdate (updateDataOf body) e).
    split; [|split].
    + unfold putEssay, findByIdAndUpdate. now rewrite Hvalid, He.
    + rewrite putEssay_lookup, Hvalid, He. simpl.
      now rewrite bool_decide_eq_true_2.
    + unfold applyUpdate. cbn [text wordCount charCount results].
      rewrite Htext, Hwc, Hcc. repeat split.
  - unfold validateUpdate in Hvalid. rewrite Htext in Hvalid. simpl in Hvalid.
    unfold validText in Hvalid.
    destruct (Z.leb_spec 10 (Str.len t)); [assumption | discriminate].
  - apply putEssay_draws.
  - intros id'. apply putEssay_keeps_results.
Qed.

(** C10. In an update, an empty string for text, level or status is
    treated as if the field were absent and the stored field keeps its
    value: with an empty text the stored text and the counts stay, with an
    empty level the stored level stays, with an empty status the stored
    status stays; an empty string for university is applied by every
    update that passes the validators; and an empty text found in the
    collection after an update was there before it. *)
Theorem empty_update_fields (id : positive) (body : UpdateBody) (w : World) :
  (up_text body = Some ""%string ->
   putEssay id body w = putEssay id (Spec.withText None body) w
   /\ forall e e' : Essay,
        essays w !! id = Some e ->
        essays (snd (putEssay id body w)) !! id = Some e' ->
        text e' = text e /\ wordCount e' = wordCount e /\ charCount e' = charCount e)
  /\ (up_level body = Some ""%string ->
      putEssay id body w = putEssay id (Spec.withLevel None body) w
      /\ forall e e' : Essay,
           essays w !! id = Some e ->
           essays (snd (putEssay id body w)) !! id = Some e' ->
           level e' = level e)
  /\ (up_status body = Some ""%string ->
      putEssay id body w = putEssay id (Spec.withStatus None body) w
      /\ forall e e' : Essay,
           essays w !! id = Some e ->
           essays (snd (putEssay id body w)) !! id = Some e' ->
           status e' = status e)
  /\ (up_university body = Some ""%string ->
      validateUpdate (updateDataOf body) = true ->
      forall e : Essay,
        essays w !! id = Some e ->
        exists e' : Essay,
          essays (snd (putEssay id body w)) !! id = Some e'
          /\ university e' = ""%string)
  /\ (forall (id' : positive) (e' : Essay),
        essays (snd (putEssay id body w)) !! id' = Some e' ->
        text e' = ""%string ->
        exists e : Essay, essays w !! id' = Some e /\ text e = ""%string).
Proof.
  split; [|split; [|split; [|split]]].
  - intros Ht.
    assert (Hu : updateDataOf body = updateDataOf (Spec.withText None body)).
    { unfold updateDataOf, Spec.withText. simpl. now rewrite Ht. }
    split; [unfold putEssay; now rewrite Hu|].
    intros e e' He He'. rewrite putEssay_lookup, He in He'.
    destruct (validateUpdate (updateDataOf body) && bool_decide (id = id));
      simpl in He'; inversion He'; subst; [|repeat split].
    unfold applyUpdate, updateDataOf. simpl. rewrite Ht. simpl. repeat split.
  - intros Hl. split.
    + unfold putEssay.
      replace (updateDataOf (Spec.withLevel None body)) with (updateDataOf body);
        [reflexivity|].
      unfold updateDataOf, Spec.withLevel. simpl. now rewrite Hl.
    + intros e e' He He'. rewrite putEssay_lookup, He in He'.
      destruct (validateUpdate (updateDataOf body) && bool_decide (id = id));
        simpl in He'; inversion He'; subst; [|reflexivity].
      unfold applyUpdate, updateDataOf. cbn [level set_level]. rewrite Hl.
      reflexivity.
  - intros Hs. split.
    + unfold putEssay.
      replace (updateDataOf (Spec.withStatus None body)) with (updateDataOf body);
        [reflexivity|].
      unfold updateDataOf, Spec.withStatus. simpl. now rewrite Hs.
    + intros e e' He He'. rewrite putEssay_lookup, He in He'.
      destruct (validateUpdate (updateDataOf body) && bool_decide (id = id));
        simpl in He'; inversion He'; subst; [|reflexivity].
      unfold applyUpdate, updateDataOf. cbn [status set_status]. rewrite Hs.
      reflexivity.
  - intros Hu Hvalid e He. exists (applyUpdate (updateDataOf body) e). split.
    + rewrite putEssay_lookup, Hvalid, He. simpl. now rewrite bool_decide_eq_true_2.
    + unfold applyUpdate, updateDataOf. simpl. now rewrite Hu.
  - intros id' e' He' Hempty. rewrite putEssay_lookup in He'.
    destruct (validateUpdate (updateDataOf body)) eqn:Hvalid; simpl in He';
      [|now exists e'].
    case_bool_decide as Hid; [|now exists e'].
    destruct (essays w !! id') as [e|] eqn:He; [|discriminate].
    simpl in He'. inversion He'; subst e'. exists e. split; [reflexivity|].
    unfold applyUpdate in Hempty. cbn [text] in Hempty.
    destruct (set_text (updateDataOf body)) as [t|] eqn:Ht; simpl in Hempty;
      [|assumption].
    subst t. unfold validateUpdate in Hvalid. rewrite Ht in Hvalid.
    simpl in Hvalid. discriminate.
Qed.

End Updates.

Lemma update_text_recomputes_counts_witness :
  exists e' : Model.Essay,
    fst (Server.putEssay 1 (Spec.setText "A longer replacement text") Spec.oneEssay)
    = Server.ok 200 (Some (1%positive, e'))
    /\ Server.essays
         (snd (Server.putEssay 1 (Spec.setText "A longer replacement text") Spec.oneEssay))
       !! 1%positive = Some e'
    /\ Model.text e' = "A longer replacement text"%string
    /\ Model.wordCount e' = 4
    /\ Model.charCount e' = 25
    /\ Model.results e' = Model.results Spec.sampleEssay.
Proof.
  apply (update_text_recomputes_counts 1 (Spec.setText "A longer replacement text")
           Spec.oneEssay Spec.sampleEssay "A longer replacement text").
  - vm_compute; reflexivity.
  - reflexivity.
  - discriminate.
  - vm_compute; reflexivity.
Defined.

(** C8 fails as stated: an update of a stored submission with the text
    "hi" is answered with 500 and the stored text is not replaced. *)
Lemma short_text_update_rejected :
  Server.essays Spec.oneEssay !! 1%positive = Some Spec.sampleEssay
  /\ Server.httpStatus (fst (Server.putEssay 1 (Spec.setText "hi") Spec.oneEssay)) = 500
  /\ Model.text <$> Server.essays (snd (Server.putEssay 1 (Spec.setText "hi") Spec.oneEssay))
                    !! 1%positive
     = Some Spec.sampleText.
Proof. repeat split; evaluate. Qed.

Lemma empty_update_fields_witness :
  Server.putEssay 1 Spec.emptyFields Spec.oneEssay
  = Server.putEssay 1 (Spec.withText None Spec.emptyFields) Spec.oneEssay
  /\ (exists e' : Model.Essay,
        Server.essays (snd (Server.putEssay 1 Spec.emptyFields Spec.oneEssay)) !! 1%positive
        = Some e'
        /\ Model.university e' = ""%string)
  /\ Model.level
       <$> Server.essays (snd (Server.putEssay 1 Spec.emptyFields Spec.oneEssay))
           !! 1%positive
     = Some (Model.level Spec.sampleEssay)
  /\ Model.status
       <$> Server.essays (snd (Server.putEssay 1 Spec.emptyFields Spec.oneEssay))
           !! 1%positive
     = Some (Model.status Spec.sampleEssay).
Proof.
  assert (He : Server.essays Spec.oneEssay !! 1%positive = Some Spec.sampleEssay)
    by (vm_compute; reflexivity).
  assert (He' : Server.essays (snd (Server.putEssay 1 Spec.emptyFields Spec.oneEssay))
                !! 1%positive
                = Some (Model.applyUpdate (Server.updateDataOf Spec.emptyFields)
                          Spec.sampleEssay))
    by (vm_compute; reflexivity).
  pose proof (empty_update_fields 1 Spec.emptyFields Spec.oneEssay)
    as (Htext & Hlevel & Hstatus & Huniversity & _).
  split; [apply Htext; reflexivity|].
  split.
  - apply (Huniversity eq_refl ltac:(vm_compute; reflexivity) Spec.sampleEssay He).
  - rewrite He'. split; apply (f_equal Some).
    + exact (proj2 (Hlevel eq_refl) Spec.sampleEssay _ He He').
    + exact (proj2 (Hstatus eq_refl) Spec.sampleEssay _ He He').
Defined.

(** ** Reachable collections *)

Section Reachability.

Import Model Server.

Variable random : nat -> Q.

Lemma validOpt_default (v : string -> bool) (o : option string) (old : string) :
  Model.validOpt v o = true -> v old = true -> v (default old o) = true.
Proof. destruct o; simpl; auto. Qed.

Lemma validate_applyUpdate (u : UpdateData) (e : Essay) :
  validateUpdate u = true -> validate e = true -> validate (applyUpdate u e) = true.
Proof.
  unfold validateUpdate, validate, applyUpdate. cbn [text level status].
  rewrite !andb_true_iff. intros [[Ht Hl] Hs] [[Ht' Hl'] Hs'].
  repeat split; now apply validOpt_default.
Qed.

Lemma wellFormed_applyUpdate (u : UpdateData) (e : Essay) :
  validateUpdate u = true -> Spec.wellFormed e -> Spec.wellFormed (applyUpdate u e).
Proof.
  intros Hu [Hr Hv]. split; [exact Hr | now apply validate_applyUpdate].
Qed.

Lemma handle_keeps_wellFormed (r : Request) (w : World) :
  map_Forall (fun _ e => Spec.wellFormed e) (essays w) ->
  map_Forall (fun _ e => Spec.wellFormed e) (essays (snd (handle random r w))).
Proof.
  intros Hw. destruct r as [body|id body|id]; simpl.
  - unfold postEvaluate. destruct (ev_text body) as [text|]; [|exact Hw].
    destruct (String.eqb text "" || (Str.len (Str.trim text) <? 10)); [exact Hw|].
    destruct (Engine.evaluateEssayAI random text (draws w)) as [results k].
    unfold save. destruct (validate (newEssay body text results)) eqn:Hv;
      simpl; [|exact Hw].
    apply map_Forall_insert_2; [|exact Hw].
    split; [eexists; reflexivity | exact Hv].
  - intros id' e' He'. rewrite putEssay_lookup in He'.
    destruct (validateUpdate (updateDataOf body)) eqn:Hv; simpl in He';
      [|exact (Hw id' e' He')].
    case_bool_decide; [|exact (Hw id' e' He')].
    destruct (essays w !! id') as [e|] eqn:He; [|discriminate].
    simpl in He'. inversion He'; subst e'.
    apply wellFormed_applyUpdate; [exact Hv | exact (Hw id' e He)].
  - unfold deleteEssay, findByIdAndDelete.
    destruct (essays w !! id); simpl; [|exact Hw].
    now apply map_Forall_delete.
Qed.

Lemma reachable_wellFormed (w : World) :
  reachable random w -> map_Forall (fun _ e => Spec.wellFormed e) (essays w).
Proof.
  intros [rs ->]. induction rs as [|r rs IH] using rev_ind.
  - simpl. apply map_Forall_empty.
  - unfold run. rewrite foldl_app. simpl. apply handle_keeps_wellFormed, IH.
Qed.

(** C9, as the code has it. Every stored submission that the routes can
    produce carries an assessment, so a status 'evaluated' always comes
    with one, and its status is one of the three of the schema; an
    evaluation that answers 201 stores its document with the assessment
    attached and the status 'evaluated' in one step. The converse does not
    hold: an update may give a submission that has an assessment the
    status 'draft' or 'archived'. *)
Theorem reachable_essays_assessed (w : World) (id : positive) (e : Essay) :
  reachable random w -> essays w !! id = Some e ->
  is_Some (results e)
  /\ (status e = "evaluated"%string -> is_Some (results e))
  /\ status e ∈ statusEnum
  /\ (forall (body : EvaluateBody) (id0 : positive) (e0 : Essay),
        fst (postEvaluate random body w) = ok 201 (Some (id0, e0)) ->
        essays (snd (postEvaluate random body w)) !! id0 = Some e0
        /\ is_Some (results e0)
        /\ status e0 = "evaluated"%string).
Proof.
  intros Hreach He.
  destruct (reachable_wellFormed w Hreach id e He) as [Hr Hv].
  split; [exact Hr|]. split; [intros _; exact Hr|]. split.
  - unfold validate in Hv. rewrite !andb_true_iff in Hv.
    destruct Hv as [_ Hs]. now apply bool_decide_eq_true in Hs.
  - intros body id0 e0. unfold postEvaluate.
    destruct (ev_text body) as [text|]; [|discriminate].
    destruct (String.eqb text "" || (Str.len (Str.trim text) <? 10)); [discriminate|].
    destruct (Engine.evaluateEssayAI random text (draws w)) as [res k].
    unfold save. destruct (validate (newEssay body text res)); [|discriminate].
    simpl. intros Hresp. inversion Hresp; subst.
    split; [apply lookup_insert_eq|]. split; [eexists|]; reflexivity.
Qed.

End Reachability.

Lemma reachable_essays_assessed_witness :
  is_Some (Model.results Spec.sampleEssay)
  /\ (Model.status Spec.sampleEssay = "evaluated"%string ->
      is_Some (Model.results Spec.sampleEssay))
  /\ Model.status Spec.sampleEssay ∈ Model.statusEnum.
Proof.
  destruct (reachable_essays_assessed Spec.half Spec.oneEssay 1 Spec.sampleEssay)
    as (H1 & H2 & H3 & _).
  - exists [Server.Evaluate Spec.evaluateSample]. reflexivity.
  - vm_compute; reflexivity.
  - exact (conj H1 (conj H2 H3)).
Defined.

(** C9 fails as stated: after an evaluation, the update that sets only the
    status 'draft' is accepted, and the stored submission then has the
    status 'draft' and still has its assessment. *)
Lemma update_sets_draft_on_assessed_essay :
  let w := Server.run Spec.half
             [Server.Evaluate Spec.evaluateSample;
              Server.Update 1 (Spec.setStatus "draft")] Server.initial in
  Server.reachable Spec.half w
  /\ Model.status <$> Server.essays w !! 1%positive = Some "draft"%string
  /\ is_Some (Server.essays w !! 1%positive ≫= Model.results).
Proof.
  intros w. split; [eexists; reflexivity|]. split; [evaluate|].
  vm_compute. eexists. reflexivity.
Qed.

(** * Further properties of the code *)

(** ** Tokens of a trimmed text *)

Section Tokens.

Lemma trimStart_starts (s : string) :
  Str.trimStart s = EmptyString
  \/ Facts.startsOutside Str.isWhiteSpace (Str.trimStart s) = true.
Proof.
  induction s as [|c s IH]; [now left|]. simpl.
  destruct (Str.isWhiteSpace c) eqn:E; [exact IH|].
  right. simpl. now rewrite E.
Qed.

Lemma trimEnd_ends (s : string) :
  Str.trimEnd s = EmptyString
  \/ Facts.endsOutside Str.isWhiteSpace (Str.trimEnd s) = true.
Proof.
  induction s as [|c s IH]; [now left|]. simpl.
  destruct (Str.trimEnd s) as [|c' t] eqn:E.
  - destruct (Str.isWhiteSpace c) eqn:Ec; [now left|].
    right. simpl. now rewrite Ec.
  - right. destruct IH as [IH|IH]; [discriminate|]. exact IH.
Qed.

Lemma trimEnd_starts (s : string) :
  Facts.startsOutside Str.isWhiteSpace s = true ->
  Facts.startsOutside Str.isWhiteSpace (Str.trimEnd s) = true.
Proof.
  destruct s as [|c s]; [discriminate|]. simpl.
  destruct (Str.isWhiteSpace c) eqn:Ec; [discriminate|]. intros _.
  destruct (Str.trimEnd s); simpl; now rewrite Ec.
Qed.

Lemma trim_shape (s : string) :
  Str.trim s = EmptyString
  \/ (Facts.startsOutside Str.isWhiteSpace (Str.trim s) = true
      /\ Facts.endsOutside Str.isWhiteSpace (Str.trim s) = true).
Proof.
  unfold Str.trim.
  destruct (trimEnd_ends (Str.trimStart s)) as [He|He]; [now left|].
  right. split; [|exact He].
  destruct (trimStart_starts s) as [Hs|Hs].
  - rewrite Hs in He. discriminate.
  - now apply trimEnd_starts.
Qed.

Lemma split_run (sep : ascii -> bool) (c c' : ascii) (s : string) :
  sep c = true -> sep c' = true ->
  Str.split sep (String c (String c' s)) = Str.split sep (String c' s).
Proof. intros Hc Hc'. simpl. now rewrite Hc, Hc'. Qed.

Lemma split_boundary (sep : ascii -> bool) (c c' : ascii) (s : string) :
  sep c = true -> sep c' = false ->
  Str.split sep (String c (String c' s))
  = EmptyString :: Str.split sep (String c' s).
Proof. intros Hc Hc'. simpl. now rewrite Hc, Hc'. Qed.

Lemma split_inside (sep : ascii -> bool) (c : ascii) (s : string) :
  sep c = false ->
  Str.split sep (String c s)
  = match Str.split sep s with
    | h :: t => String c h :: t
    | [] => [String c EmptyString]
    end.
Proof. intros Hc. simpl. now rewrite Hc. Qed.

Lemma split_fragments (sep : ascii -> bool) (s : string) :
  Facts.endsOutside sep s = true ->
  Forall (fun w => w <> EmptyString) (tail (Str.split sep s))
  /\ (Facts.startsOutside sep s = true ->
      Forall (fun w => w <> EmptyString) (Str.split sep s)).
Proof.
  induction s as [|c s IH]; [discriminate|].
  destruct s as [|c' s'].
  - simpl. intros Hc. destruct (sep c); [discriminate|].
    split; [constructor|]. intros _. repeat constructor. discriminate.
  - intros Hends. change (Facts.endsOutside sep (String c' s') = true) in Hends.
    destruct (IH Hends) as [IHt IHh].
    destruct (sep c) eqn:Ec.
    + split; [|simpl; rewrite Ec; discriminate].
      destruct (sep c') eqn:Ec'.
      * now rewrite split_run.
      * rewrite split_boundary by assumption.
        simpl tail. apply IHh. simpl. now rewrite Ec'.
    + rewrite split_inside by assumption.
      destruct (Str.split sep (String c' s')) as [|h t] eqn:E.
      * split; [constructor|]. intros _. repeat constructor. discriminate.
      * simpl in IHt. split; [exact IHt|].
        intros _. constructor; [discriminate | exact IHt].
Qed.

(** The tokens of a text that is not blank are all non-empty. *)
Lemma tokens_nonempty (text : string) :
  Str.trim text <> EmptyString ->
  Forall (fun w => w <> EmptyString)
         (Str.split Str.isWhiteSpace (Str.trim text)).
Proof.
  intros Hne. destruct (trim_shape text) as [H|[Hs He]]; [contradiction|].
  now apply split_fragments.
Qed.

Lemma split_total_length (sep : ascii -> bool) (s : string) :
  (foldr (fun w n => String.length w + n) 0 (Str.split sep s) <= String.length s)%nat.
Proof.
  induction s as [|c s IH]; [simpl; lia|].
  destruct (sep c) eqn:Ec.
  - destruct s as [|c' s'].
    + simpl. rewrite Ec. simpl. lia.
    + destruct (sep c') eqn:Ec'.
      * rewrite split_run by assumption.
        set (L := Str.split sep (String c' s')) in *. simpl in *. lia.
      * rewrite split_boundary by assumption.
        set (L := Str.split sep (String c' s')) in *. simpl in *. lia.
  - rewrite split_inside by assumption.
    destruct (Str.split sep s) as [|h t]; simpl in *; lia.
Qed.

Lemma nonempty_count (l : list string) :
  Forall (fun w => w <> EmptyString) l ->
  (length l <= foldr (fun w n => String.length w + n) 0 l)%nat.
Proof.
  induction 1 as [|w l Hw _ IH]; simpl; [lia|].
  destruct w; [contradiction | simpl; lia].
Qed.

Lemma filter_nonempty_id (l : list string) :
  Forall (fun w => w <> EmptyString) l ->
  List.filter (fun w => negb (String.eqb w "")) l = l.
Proof.
  induction 1 as [|w l Hw _ IH]; simpl; [reflexivity|].
  destruct (String.eqb_spec w ""); [contradiction|]. simpl. now rewrite IH.
Qed.

(** X1. For a text that is not blank the engine's wordCount is at least 1
    and at most its charCount. *)
Theorem wordCount_at_most_charCount (random : nat -> Q) (text : string) (k : nat) :
  Str.trim text <> EmptyString ->
  let r := fst (Engine.evaluateEssayAI random text k) in
  1 <= Engine.wordCount r /\ Engine.wordCount r <= Engine.charCount r.
Proof.
  intros Hne r. subst r.
  destruct (eval_counts random text k) as [-> ->].
  split; [apply wordCountOf_pos|].
  unfold Engine.wordCountOf.
  pose proof (nonempty_count _ (tokens_nonempty text Hne)) as H1.
  pose proof (split_total_length Str.isWhiteSpace (Str.trim text)) as H2.
  pose proof (trim_len text) as H3. unfold Str.len in *. lia.
Qed.

(** X2. The word counter of the editor agrees with the engine's wordCount
    on every text that is not blank; on a blank text the editor shows 0
    while the engine counts 1. *)
Theorem frontend_wordCount_agrees (text : string) :
  (Str.trim text <> EmptyString ->
   Frontend.wordCount text = Engine.wordCountOf text)
  /\ (Str.trim text = EmptyString ->
      Frontend.wordCount text = 0 /\ Engine.wordCountOf text = 1).
Proof.
  unfold Frontend.wordCount, Engine.wordCountOf. split.
  - intros Hne. now rewrite (filter_nonempty_id _ (tokens_nonempty text Hne)).
  - intros ->. split; reflexivity.
Qed.

End Tokens.

Lemma wordCount_at_most_charCount_witness :
  let r := fst (Engine.evaluateEssayAI Spec.half Spec.sampleText 0%nat) in
  1 <= Engine.wordCount r /\ Engine.wordCount r <= Engine.charCount r.
Proof.
  apply (wordCount_at_most_charCount Spec.half Spec.sampleText 0%nat).
  vm_compute. discriminate.
Defined.

Lemma frontend_wordCount_agrees_witness :
  Frontend.wordCount Spec.sampleText = Engine.wordCountOf Spec.sampleText
  /\ Frontend.wordCount "   " = 0 /\ Engine.wordCountOf "   " = 1.
Proof.
  destruct (frontend_wordCount_agrees Spec.sampleText) as [H1 _].
  destruct (frontend_wordCount_agrees "   ") as [_ H2].
  split.
  - apply H1. vm_compute. discriminate.
  - apply H2. vm_compute. reflexivity.
Defined.

(** ** The engine beyond the score *)

Section Feedback.

Local Open Scope Q_scope.

Variable random : nat -> Q.
Variable text : string.
Variable k : nat.

Lemma eval_estimatedReadTime :
  Engine.estimatedReadTime (fst (Engine.evaluateEssayAI random text k))
  = Num.ceil (inject_Z (Engine.wordCountOf text) / 200).
Proof. reflexivity. Qed.

Lemma eval_readability :
  Engine.readability (fst (Engine.evaluateEssayAI random text k))
  = if Num.lt (Engine.avgSentenceLengthOf text) (Num.Fin 15)
    then "High School Level"%string
    else if Num.gt (Engine.avgSentenceLengthOf text) (Num.Fin 25)
         then "Graduate Level"%string
         else "College Level"%string.
Proof. reflexivity. Qed.

Lemma eval_strengths :
  let r := fst (Engine.evaluateEssayAI random text k) in
  Engine.strengths r
  = Engine.orDefault
      ((if Num.Qlt_bool 85 (Engine.grammar (Engine.breakdown r))
        then ["Excellent grammar with minimal errors"%string] else []) ++
       (if Num.Qlt_bool 80 (Engine.structure (Engine.breakdown r))
        then ["Well-organized essay structure with clear progression"%string] else []) ++
       (if (500 <? Engine.wordCountOf text)%Z
        then ["Comprehensive coverage of the topic"%string] else []) ++
       (if Num.gt (Engine.vocabularyRichnessOf text) (Num.Fin (65 # 100))
        then ["Rich and varied vocabulary usage"%string] else []))
      Engine.defaultStrengths.
Proof. reflexivity. Qed.

Lemma eval_improvements :
  let r := fst (Engine.evaluateEssayAI random text k) in
  Engine.improvements r
  = Engine.orDefault
      ((if Num.Qlt_bool (Engine.coherence (Engine.breakdown r)) 75
        then ["Improve logical flow between paragraphs"%string] else []) ++
       (if Num.gt (Engine.avgSentenceLengthOf text) (Num.Fin 30)
        then ["Consider breaking down complex sentences for clarity"%string] else []) ++
       (if (Engine.wordCountOf text <? 300)%Z
        then ["Expand arguments with more supporting evidence"%string] else []) ++
       (if Num.Qlt_bool (Engine.arguments (Engine.breakdown r)) 80
        then ["Strengthen main arguments with specific examples"%string] else []))
      Engine.defaultImprovements.
Proof. reflexivity. Qed.

Lemma eval_suggestions :
  Engine.suggestions (fst (Engine.evaluateEssayAI random text k))
  = Engine.orDefault
      (concat (imap (fun idx sentence =>
         if Nat.eqb idx 0 && (Str.len (Str.trim sentence) <? 80)%Z
         then [ {| Engine.original := String.append (Str.trim sentence) ".";
                   Engine.improved := "Consider expanding your opening statement to provide more context and engage the reader immediately.";
                   Engine.reason := "Stronger opening statement" |} ]
         else []) (firstn 3 (Engine.sentencesOf text))))
      Engine.defaultSuggestions.
Proof. reflexivity. Qed.

End Feedback.

Section FeedbackFacts.

Local Open Scope Q_scope.

Lemma min_ge (a b c : Q) : c <= a -> c <= b -> c <= Num.min a b.
Proof. intros Ha Hb. destruct (min_spec a b) as [[_ ->]|[_ ->]]; assumption. Qed.

Lemma clampedScore_lt (baseScore : Z) (randomFactor u : Q) :
  inject_Z baseScore + randomFactor < u -> 50 < u ->
  Engine.clampedScore baseScore randomFactor < u.
Proof.
  intros H1 H2. unfold Engine.clampedScore.
  destruct (min_spec 98 (inject_Z baseScore + randomFactor)) as [[H3 ->]|[H3 ->]];
    match goal with |- context [Num.max ?a ?b] =>
      destruct (max_spec a b) as [[H4 ->]|[H4 ->]] end; lra.
Qed.

Lemma concat_imap_nil {A B : Type} (g : nat -> A -> list B) (l : list A) :
  (forall i x, g i x = []) -> concat (imap g l) = [].
Proof.
  revert g. induction l as [|x l IH]; intros g Hg; [reflexivity|].
  simpl. rewrite Hg. simpl. apply IH. intros i y. apply Hg.
Qed.

Lemma concat_imap_first {A B : Type} (g : nat -> A -> list B) (l : list A) :
  (forall i x, g (S i) x = []) ->
  concat (imap g l) = match l with [] => [] | x :: _ => g 0%nat x end.
Proof.
  intros Hg. destruct l as [|x l]; [reflexivity|].
  simpl. rewrite (concat_imap_nil (g ∘ S) l) by (intros i y; apply Hg).
  apply app_nil_r.
Qed.

Lemma avgSentenceLength_cases (text : string) :
  Engine.avgSentenceLengthOf text = Num.PosInfinity
  \/ exists q : Q, Engine.avgSentenceLengthOf text = Num.Fin q.
Proof.
  unfold Engine.avgSentenceLengthOf, Num.div.
  pose proof (wordCountOf_pos text) as Hw.
  destruct (Z.of_nat (length (Engine.sentencesOf text)) =? 0)%Z; [|right; eexists; reflexivity].
  destruct (Z.eqb_spec (Engine.wordCountOf text) 0); [lia|].
  destruct (Z.ltb_spec 0 (Engine.wordCountOf text)); [now left | lia].
Qed.

Lemma min_le_r (a b : Q) : Num.min a b <= b.
Proof. destruct (min_spec a b) as [[H ->]|[H ->]]; lra. Qed.

Lemma Qlt_bool_false (a b : Q) : b <= a -> Num.Qlt_bool a b = false.
Proof.
  intros H. destruct (Num.Qlt_bool a b) eqn:E; [|reflexivity].
  apply Qlt_bool_true in E. lra.
Qed.

Lemma round_tenth_le (x : Q) (u : Z) :
  x <= inject_Z u -> inject_Z (Num.round (x * 10)) / 10 <= inject_Z u.
Proof.
  intros Hx. unfold Num.round.
  pose proof (Qfloor_le (x * 10 + (1 # 2))) as Hle.
  set (n := Qfloor (x * 10 + (1 # 2))) in *. clearbody n.
  assert (H : (n < 10 * u + 1)%Z).
  { rewrite Zlt_Qlt, inject_Z_plus, inject_Z_mult.
    change (inject_Z 10) with 10. change (inject_Z 1) with 1. lra. }
  assert (H' : inject_Z n <= inject_Z (10 * u)) by (rewrite <- Zle_Qle; lia).
  rewrite inject_Z_mult in H'. change (inject_Z 10) with 10 in H'.
  tenths. lra.
Qed.

Lemma baseScore_short (text : string) :
  (Engine.wordCountOf text < 100)%Z -> inject_Z (Engine.baseScoreOf text) <= 68.
Proof.
  intros Hwc. change 68 with (inject_Z 68). rewrite <- Zle_Qle.
  unfold Engine.baseScoreOf. cbv zeta.
  destruct (Z.leb_spec 300 (Engine.wordCountOf text)); [lia|].
  destruct (Z.ltb_spec (Engine.wordCountOf text) 100); [|lia].
  destruct (Num.ge (Engine.avgSentenceLengthOf text) (Num.Fin 15)
            && Num.le (Engine.avgSentenceLengthOf text) (Num.Fin 25));
    destruct (Num.gt (Engine.vocabularyRichnessOf text) (Num.Fin (6 # 10)));
    cbn [andb]; lia.
Qed.

(** X3. The estimated read time is the number of started blocks of 200
    words: it is at least 1 and it is the least number of minutes whose
    200-word blocks hold the text. *)
Theorem estimatedReadTime_bounds (random : nat -> Q) (text : string) (k : nat) :
  let r := fst (Engine.evaluateEssayAI random text k) in
  (1 <= Engine.estimatedReadTime r)%Z
  /\ (200 * (Engine.estimatedReadTime r - 1) < Engine.wordCount r)%Z
  /\ (Engine.wordCount r <= 200 * Engine.estimatedReadTime r)%Z.
Proof.
  intros r. subst r. rewrite eval_estimatedReadTime.
  destruct (eval_counts random text k) as [-> _].
  pose proof (wordCountOf_pos text) as Hw. unfold Num.ceil.
  pose proof (Qle_ceiling (inject_Z (Engine.wordCountOf text) / 200)) as Hle.
  pose proof (Qceiling_lt (inject_Z (Engine.wordCountOf text) / 200)) as Hlt.
  set (c := Qceiling (inject_Z (Engine.wordCountOf text) / 200)) in *. clearbody c.
  set (n := Engine.wordCountOf text) in *. clearbody n.
  unfold Qdiv in Hle, Hlt. change (/ 200) with (1 # 200) in Hle, Hlt.
  assert (H1 : (n <= 200 * c)%Z).
  { rewrite Zle_Qle, inject_Z_mult. change (inject_Z 200) with 200. lra. }
  assert (H2 : (200 * (c - 1) < n)%Z).
  { rewrite Zlt_Qlt, inject_Z_mult. change (inject_Z 200) with 200. lra. }
  lia.
Qed.

(** X4. The three feedback lists are never empty: strengths and
    improvements hold between one and four entries, and suggestions holds
    exactly one. *)
Theorem feedback_lists_shape (random : nat -> Q) (text : string) (k : nat) :
  let r := fst (Engine.evaluateEssayAI random text k) in
  (1 <= length (Engine.strengths r) <= 4)%nat
  /\ (1 <= length (Engine.improvements r) <= 4)%nat
  /\ length (Engine.suggestions r) = 1%nat.
Proof.
  intros r. subst r.
  pose proof (eval_strengths random text k) as Hs. cbv zeta in Hs. rewrite Hs.
  pose proof (eval_improvements random text k) as Hi. cbv zeta in Hi. rewrite Hi.
  rewrite eval_suggestions. clear Hs Hi.
  split; [|split].
  - repeat match goal with |- context [if ?b then _ else _] => destruct b end;
      simpl; lia.
  - repeat match goal with |- context [if ?b then _ else _] => destruct b end;
      simpl; lia.
  - rewrite concat_imap_first by reflexivity.
    destruct (firstn 3 (Engine.sentencesOf text)) as [|s l]; [reflexivity|].
    simpl. destruct (Str.len (Str.trim s) <? 80)%Z; reflexivity.
Qed.

(** X5. The base score lies between 55 and 93: at most 68 under 100
    words, at least 80 from 300 to 800 words, and between 70 and 83
    otherwise. *)
Theorem baseScore_range (text : string) :
  (55 <= Engine.baseScoreOf text <= 93)%Z
  /\ ((Engine.wordCountOf text < 100)%Z -> (Engine.baseScoreOf text <= 68)%Z)
  /\ ((300 <= Engine.wordCountOf text <= 800)%Z -> (80 <= Engine.baseScoreOf text)%Z)
  /\ ((100 <= Engine.wordCountOf text < 300)%Z \/ (800 < Engine.wordCountOf text)%Z ->
      (70 <= Engine.baseScoreOf text <= 83)%Z).
Proof.
  unfold Engine.baseScoreOf. cbv zeta.
  destruct (Z.leb_spec 300 (Engine.wordCountOf text));
    destruct (Z.leb_spec (Engine.wordCountOf text) 800);
    destruct (Z.ltb_spec (Engine.wordCountOf text) 100);
    destruct (Num.ge (Engine.avgSentenceLengthOf text) (Num.Fin 15)
              && Num.le (Engine.avgSentenceLengthOf text) (Num.Fin 25));
    destruct (Num.gt (Engine.vocabularyRichnessOf text) (Num.Fin (6 # 10)));
    cbn [andb]; lia.
Qed.

(** X6. With draws in [0, 1) the breakdown values have floors although
    the code sets none: grammar and vocabulary are at least 45, structure
    at least 46, coherence at least 44 and arguments at least 43. *)
Theorem breakdown_floors (random : nat -> Q) (text : string) (k : nat) :
  Spec.fair random ->
  let r := fst (Engine.evaluateEssayAI random text k) in
  45 <= Engine.grammar (Engine.breakdown r)
  /\ 46 <= Engine.structure (Engine.breakdown r)
  /\ 44 <= Engine.coherence (Engine.breakdown r)
  /\ 45 <= Engine.vocabulary (Engine.breakdown r)
  /\ 43 <= Engine.arguments (Engine.breakdown r).
Proof.
  intros Hfair r. subst r. rewrite eval_breakdown. simpl.
  pose proof (clampedScore_range (Engine.baseScoreOf text) (random k * 12 - 6)) as Hs.
  pose proof (Hfair (k + 1)%nat) as [? ?]. pose proof (Hfair (k + 2)%nat) as [? ?].
  pose proof (Hfair (k + 3)%nat) as [? ?]. pose proof (Hfair (k + 4)%nat) as [? ?].
  pose proof (Hfair (k + 5)%nat) as [? ?].
  repeat split; apply min_ge; lra.
Qed.

(** X7. With draws in [0, 1), a text of fewer than 100 words scores at
    most 74 and is never praised for grammar, structure or coverage: its
    strengths are the default pair or the single vocabulary entry. *)
Theorem short_text_strengths (random : nat -> Q) (text : string) (k : nat) :
  Spec.fair random -> (Engine.wordCountOf text < 100)%Z ->
  let r := fst (Engine.evaluateEssayAI random text k) in
  Engine.overallScore r <= 74
  /\ (Engine.strengths r = Engine.defaultStrengths
      \/ Engine.strengths r = ["Rich and varied vocabulary usage"%string]).
Proof.
  intros Hfair Hwc r. subst r.
  pose proof (baseScore_short text Hwc) as Hb.
  destruct (Hfair k) as [Hr0 Hr1].
  destruct (Hfair (k + 1)%nat) as [_ Hg]. destruct (Hfair (k + 2)%nat) as [_ Hst].
  assert (Hs : Engine.clampedScore (Engine.baseScoreOf text) (random k * 12 - 6) < 74)
    by (apply clampedScore_lt; lra).
  split.
  - rewrite eval_overallScore. apply (round_tenth_le _ 74).
    change (inject_Z 74) with 74. lra.
  - pose proof (eval_strengths random text k) as H. cbv zeta in H. rewrite H. clear H.
    rewrite eval_breakdown. cbn [Engine.grammar Engine.structure].
    rewrite (Qlt_bool_false 85), (Qlt_bool_false 80).
    + destruct (Z.ltb_spec 500 (Engine.wordCountOf text)); [lia|].
      destruct (Num.gt (Engine.vocabularyRichnessOf text) (Num.Fin (65 # 100)));
        [now right | now left].
    + match goal with |- Num.min ?a ?b <= _ => pose proof (min_le_r a b) end. lra.
    + match goal with |- Num.min ?a ?b <= _ => pose proof (min_le_r a b) end. lra.
Qed.

End FeedbackFacts.

Lemma breakdown_floors_witness :
  (43 <= Engine.arguments
           (Engine.breakdown (fst (Engine.evaluateEssayAI Spec.half Spec.sampleText 0%nat))))%Q.
Proof.
  apply (breakdown_floors Spec.half Spec.sampleText 0%nat).
  intros n; split; vm_compute; [discriminate | reflexivity].
Defined.

Lemma short_text_strengths_witness :
  (Engine.overallScore (fst (Engine.evaluateEssayAI Spec.half Spec.sampleText 0%nat))
   <= 74)%Q.
Proof.
  apply (short_text_strengths Spec.half Spec.sampleText 0%nat).
  - intros n; split; vm_compute; [discriminate | reflexivity].
  - vm_compute. reflexivity.
Defined.

Section Readability.

Local Open Scope Q_scope.

(** X8. The readability label is 'College Level' exactly for the texts
    that receive the sentence-length bonus, and one of 'High School Level'
    and 'Graduate Level' otherwise. *)
Theorem college_level_iff_sentence_bonus (random : nat -> Q) (text : string) (k : nat) :
  let r := fst (Engine.evaluateEssayAI random text k) in
  let avg := Engine.avgSentenceLengthOf text in
  (Engine.readability r = "College Level"%string
   <-> Num.ge avg (Num.Fin 15) && Num.le avg (Num.Fin 25) = true)
  /\ (Engine.readability r = "High School Level"%string
      \/ Engine.readability r = "College Level"%string
      \/ Engine.readability r = "Graduate Level"%string).
Proof.
  intros r avg. subst r avg. rewrite eval_readability.
  destruct (avgSentenceLength_cases text) as [->|[q ->]]; simpl.
  - split; [split; discriminate | auto].
  - unfold Num.Qlt_bool.
    destruct (Qle_bool 15 q), (Qle_bool q 25); simpl;
      (split; [split; first [reflexivity | discriminate] | auto]).
Qed.

(** X9. A text none of whose fragments is a sentence is labelled
    'Graduate Level' and is told to break down complex sentences, and its
    single suggestion is the default one. *)
Theorem no_sentence_feedback (random : nat -> Q) (text : string) (k : nat) :
  Engine.sentencesOf text = [] ->
  let r := fst (Engine.evaluateEssayAI random text k) in
  Engine.readability r = "Graduate Level"%string
  /\ In "Consider breaking down complex sentences for clarity"%string
        (Engine.improvements r)
  /\ Engine.suggestions r = Engine.defaultSuggestions.
Proof.
  intros Hnone r. subst r.
  assert (Havg : Engine.avgSentenceLengthOf text = Num.PosInfinity).
  { unfold Engine.avgSentenceLengthOf, Num.div. rewrite Hnone. simpl.
    pose proof (wordCountOf_pos text).
    destruct (Z.eqb_spec (Engine.wordCountOf text) 0); [lia|].
    destruct (Z.ltb_spec 0 (Engine.wordCountOf text)); [reflexivity | lia]. }
  split; [|split].
  - rewrite eval_readability, Havg. reflexivity.
  - pose proof (eval_improvements random text k) as H. cbv zeta in H. rewrite H.
    rewrite Havg. cbn [Num.gt Num.lt].
    repeat match goal with |- context [if ?b then _ else _] => destruct b end;
      cbn [app Engine.orDefault In]; auto.
  - rewrite eval_suggestions, Hnone. reflexivity.
Qed.

End Readability.

Lemma no_sentence_feedback_witness :
  let r := fst (Engine.evaluateEssayAI Spec.half ".........." 0%nat) in
  Engine.readability r = "Graduate Level"%string
  /\ In "Consider breaking down complex sentences for clarity"%string
        (Engine.improvements r)
  /\ Engine.suggestions r = Engine.defaultSuggestions.
Proof.
  apply (no_sentence_feedback Spec.half ".........." 0%nat).
  vm_compute. reflexivity.
Defined.

(** ** The mock evaluation of the frontend *)

Section Mock.

Local Open Scope Q_scope.

(** X10. The mock evaluation of the editor gives nothing and draws
    nothing for a blank text. For any other text and draws in [0, 1) its
    overall score is 75 + 15r, within [75, 90], so that its clamp to
    [60, 95] never acts, and each breakdown value lies between the overall
    score and 100. *)
Theorem mock_evaluation_range (random : nat -> Q) (text : string) (k : nat) :
  Spec.fair random ->
  (Str.trim text = EmptyString ->
   Frontend.evaluateEssay random text k = (None, k))
  /\ (Str.trim text <> EmptyString ->
      exists m : Frontend.MockResults,
        fst (Frontend.evaluateEssay random text k) = Some m
        /\ Frontend.overallScore m = 75 + random k * 15
        /\ (75 <= Frontend.overallScore m /\ Frontend.overallScore m <= 90)
        /\ (Frontend.overallScore m <= Engine.grammar (Frontend.breakdown m) <= 100)
        /\ (Frontend.overallScore m <= Engine.structure (Frontend.breakdown m) <= 100)
        /\ (Frontend.overallScore m <= Engine.coherence (Frontend.breakdown m) <= 100)
        /\ (Frontend.overallScore m <= Engine.vocabulary (Frontend.breakdown m) <= 100)
        /\ (Frontend.overallScore m <= Engine.arguments (Frontend.breakdown m) <= 100)).
Proof.
  intros Hfair. unfold Frontend.evaluateEssay. split.
  - intros ->. reflexivity.
  - intros Hne. destruct (String.eqb_spec (Str.trim text) ""); [contradiction|].
    eexists. split; [reflexivity|]. cbn [Frontend.overallScore Frontend.breakdown
      Engine.grammar Engine.structure Engine.coherence Engine.vocabulary
      Engine.arguments].
    destruct (Hfair k) as [H0 H1].
    assert (Hscore : Num.min 95 (Num.max 60 (75 + random k * 15)) = 75 + random k * 15).
    { destruct (max_spec 60 (75 + random k * 15)) as [[_ ->]|[H _]]; [|lra].
      destruct (min_spec 95 (75 + random k * 15)) as [[H _]|[_ ->]]; [lra | reflexivity]. }
    rewrite Hscore.
    destruct (Hfair (S k)) as [? ?]. destruct (Hfair (S (S k))) as [? ?].
    destruct (Hfair (S (S (S k)))) as [? ?].
    destruct (Hfair (S (S (S (S k))))) as [? ?].
    destruct (Hfair (S (S (S (S (S k)))))) as [? ?].
    repeat split; try lra; try apply min_le_l; apply min_ge; lra.
Qed.

End Mock.

Lemma mock_evaluation_range_witness :
  Frontend.evaluateEssay Spec.half "   " 0%nat = (None, 0%nat)
  /\ exists m : Frontend.MockResults,
       fst (Frontend.evaluateEssay Spec.half Spec.sampleText 0%nat) = Some m
       /\ Frontend.overallScore m = (75 + Spec.half 0%nat * 15)%Q.
Proof.
  assert (Hfair : Spec.fair Spec.half)
    by (intros n; split; vm_compute; [discriminate | reflexivity]).
  split.
  - apply (mock_evaluation_range Spec.half "   " 0%nat Hfair). reflexivity.
  - destruct (proj2 (mock_evaluation_range Spec.half Spec.sampleText 0%nat Hfair))
      as [m Hm]; [vm_compute; discriminate|].
    exists m. split; apply Hm.
Defined.

(** ** Reading, deleting and updating *)

Section ReadWrite.

Import Model Server Queries.

Variable random : nat -> Q.

Lemma postEvaluate_cases (body : EvaluateBody) (w : World) :
  (snd (postEvaluate random body w) = w
   /\ httpStatus (fst (postEvaluate random body w)) = 400)
  \/ (exists text : string,
        ev_text body = Some text /\ Spec.accepted text
        /\ let results := fst (Engine.evaluateEssayAI random text (draws w)) in
           let essay := newEssay body text results in
           (validate essay = true
            /\ fst (postEvaluate random body w)
               = ok 201 (Some (fresh (dom (essays w)), essay))
            /\ essays (snd (postEvaluate random body w))
               = <[fresh (dom (essays w)) := essay]> (essays w))
           \/ (validate essay = false
               /\ httpStatus (fst (postEvaluate random body w)) = 500
               /\ essays (snd (postEvaluate random body w)) = essays w)).
Proof.
  destruct (ev_text body) as [text|] eqn:Ht.
  - destruct (Z.ltb_spec (Str.len (Str.trim text)) 10) as [Hshort|Hlong].
    + left. rewrite postEvaluate_rejected; [split; reflexivity|].
      unfold Spec.textRejected. now rewrite Ht.
    + right. exists text. split; [reflexivity|]. split; [exact Hlong|].
      rewrite (postEvaluate_accepted random body w text Ht Hlong). cbv zeta.
      unfold save.
      destruct (validate (newEssay body text
                  (fst (Engine.evaluateEssayAI random text (draws w))))) eqn:Hv.
      * left. repeat split.
      * right. repeat split.
  - left. rewrite postEvaluate_rejected; [split; reflexivity|].
    unfold Spec.textRejected. now rewrite Ht.
Qed.

(** X11. A submission answered with 201 can be read back: its id was not
    in use before, reading that id returns the same document with 200,
    and every document stored before is still there unchanged. An
    evaluation that is not answered with 201 leaves the collection as it
    was. *)
Theorem evaluate_then_get (body : EvaluateBody) (w : World) :
  (forall (id : positive) (e : Essay),
     fst (postEvaluate random body w) = ok 201 (Some (id, e)) ->
     essays w !! id = None
     /\ getEssay id (snd (postEvaluate random body w)) = ok 200 (Some (id, e))
     /\ (forall id' : positive, id' <> id ->
           essays (snd (postEvaluate random body w)) !! id' = essays w !! id'))
  /\ (httpStatus (fst (postEvaluate random body w)) <> 201 ->
      essays (snd (postEvaluate random body w)) = essays w).
Proof.
  destruct (postEvaluate_cases body w) as [[Hw Hs]|(text & Ht & Hacc & H)].
  - rewrite Hw. split; [|reflexivity].
    intros id e Hresp. rewrite Hresp in Hs. discriminate.
  - cbv zeta in H. destruct H as [(Hv & Hresp & Hcoll)|(Hv & Hs & Hcoll)].
    + split; [|rewrite Hresp; simpl; congruence].
      intros id e Hr. rewrite Hresp in Hr. inversion Hr; subst id e.
      split; [apply fresh_lookup|]. split.
      * unfold getEssay. rewrite Hcoll, lookup_insert_eq. reflexivity.
      * intros id' Hne. rewrite Hcoll. now apply lookup_insert_ne.
    + split; [|intros _; exact Hcoll].
      intros id e Hr. rewrite Hr in Hs. discriminate.
Qed.

(** X12. Deleting a stored id is answered with 200, removes exactly that
    document so that reading the id then gives 404, and leaves every other
    document alone; deleting an unknown id is answered with 404 and
    changes nothing. *)
Theorem delete_route (id : positive) (w : World) :
  (forall e : Essay,
     essays w !! id = Some e ->
     fst (deleteEssay id w) = ok 200 None
     /\ getEssay id (snd (deleteEssay id w)) = failure 404 "Essay not found"
     /\ size (essays w) = S (size (essays (snd (deleteEssay id w))))
     /\ (forall id' : positive, id' <> id ->
           essays (snd (deleteEssay id w)) !! id' = essays w !! id'))
  /\ (essays w !! id = None ->
      deleteEssay id w = (failure 404 "Essay not found", w)).
Proof.
  unfold deleteEssay, findByIdAndDelete, getEssay. split.
  - intros e He. rewrite He. simpl. rewrite lookup_delete_eq.
    split; [reflexivity|]. split; [reflexivity|]. split.
    + rewrite <- (insert_delete_id (essays w) id e He) at 1.
      apply map_size_insert_None, lookup_delete_eq.
    + intros id' Hne. now apply lookup_delete_ne.
  - intros ->. reflexivity.
Qed.

Lemma applyUpdate_twice (u : UpdateData) (e : Essay) :
  applyUpdate u (applyUpdate u e) = applyUpdate u e.
Proof.
  unfold applyUpdate. simpl.
  destruct (set_text u), (set_university u), (set_level u), (set_wordCount u),
    (set_charCount u), (set_status u); reflexivity.
Qed.

(** X13. An update changes no id and no other document; one that is not
    answered with 200 changes nothing at all: it is answered with 500 when
    a validator rejects it, and with 404 when the validators pass and the
    id is unknown. *)
Theorem update_frame (id : positive) (body : UpdateBody) (w : World) :
  dom (essays (snd (putEssay id body w))) = dom (essays w)
  /\ (forall id' : positive, id' <> id ->
        essays (snd (putEssay id body w)) !! id' = essays w !! id')
  /\ (httpStatus (fst (putEssay id body w)) <> 200 -> snd (putEssay id body w) = w)
  /\ (validateUpdate (updateDataOf body) = false ->
      putEssay id body w = (failure 500 "Failed to update essay", w))
  /\ (validateUpdate (updateDataOf body) = true -> essays w !! id = None ->
      putEssay id body w = (failure 404 "Essay not found", w)).
Proof.
  split; [|split; [|split; [|split]]].
  - apply set_eq. intros id'. rewrite !elem_of_dom, putEssay_lookup.
    destruct (validateUpdate (updateDataOf body) && bool_decide (id = id'));
      [|reflexivity].
    rewrite fmap_is_Some. reflexivity.
  - intros id' Hne. rewrite putEssay_lookup.
    rewrite (bool_decide_eq_false_2 (id = id')) by congruence.
    now rewrite andb_false_r.
  - unfold putEssay, findByIdAndUpdate.
    destruct (validateUpdate (updateDataOf body)); [|reflexivity].
    destruct (essays w !! id); [|reflexivity]. simpl. congruence.
  - intros Hv. unfold putEssay, findByIdAndUpdate. now rewrite Hv.
  - intros Hv Hid. unfold putEssay, findByIdAndUpdate. now rewrite Hv, Hid.
Qed.

Lemma putEssay_twice (id : positive) (body : UpdateBody) (w : World) :
  putEssay id body (snd (putEssay id body w)) = putEssay id body w.
Proof.
  unfold putEssay, findByIdAndUpdate.
  destruct (validateUpdate (updateDataOf body)) eqn:Hv; [|reflexivity].
  destruct (essays w !! id) as [e|] eqn:He; simpl.
  - rewrite lookup_insert_eq, applyUpdate_twice, insert_insert_eq. reflexivity.
  - now rewrite He.
Qed.

(** X14. Repeating an update changes no field that the schema declares:
    the second request gets the status code of the first, the stored ids
    stay, and every stored document keeps the text, university, level,
    counts, results and status that the first request left. (The
    timestamps, which every accepted update renews, are not among the
    fields of [Essay].) *)
Theorem update_idempotent (id : positive) (body : UpdateBody) (w : World) :
  let w1 := snd (putEssay id body w) in
  let w2 := snd (putEssay id body w1) in
  httpStatus (fst (putEssay id body w1)) = httpStatus (fst (putEssay id body w))
  /\ dom (essays w2) = dom (essays w1)
  /\ (forall (id' : positive) (e1 e2 : Essay),
        essays w1 !! id' = Some e1 -> essays w2 !! id' = Some e2 ->
        text e2 = text e1 /\ university e2 = university e1
        /\ level e2 = level e1 /\ wordCount e2 = wordCount e1
        /\ charCount e2 = charCount e1 /\ results e2 = results e1
        /\ status e2 = status e1).
Proof.
  intros w1 w2. subst w1 w2. rewrite putEssay_twice.
  split; [reflexivity|]. split; [reflexivity|].
  intros id' e1 e2 H1 H2. rewrite H1 in H2. inversion H2; subst e2.
  repeat split.
Qed.

End ReadWrite.

Lemma evaluate_then_get_witness :
  Queries.getEssay 1 Spec.oneEssay = Server.ok 200 (Some (1%positive, Spec.sampleEssay)).
Proof.
  destruct (evaluate_then_get Spec.half Spec.evaluateSample Server.initial) as [H _].
  apply (H 1%positive Spec.sampleEssay). vm_compute. reflexivity.
Defined.

Lemma delete_route_witness :
  Queries.getEssay 1 (snd (Server.deleteEssay 1 Spec.oneEssay))
  = Server.failure 404 "Essay not found"
  /\ Server.deleteEssay 2 Spec.oneEssay
     = (Server.failure 404 "Essay not found", Spec.oneEssay).
Proof.
  split.
  - destruct (delete_route 1 Spec.oneEssay) as [H _].
    apply (H Spec.sampleEssay). vm_compute. reflexivity.
  - destruct (delete_route 2 Spec.oneEssay) as [_ H].
    apply H. vm_compute. reflexivity.
Defined.

Lemma update_idempotent_witness :
  Model.status
    <$> Server.essays
          (snd (Server.putEssay 1 (Spec.setStatus "archived")
                  (snd (Server.putEssay 1 (Spec.setStatus "archived") Spec.oneEssay))))
        !! 1%positive
  = Model.status
    <$> Server.essays (snd (Server.putEssay 1 (Spec.setStatus "archived") Spec.oneEssay))
        !! 1%positive.
Proof.
  destruct (update_idempotent 1 (Spec.setStatus "archived") Spec.oneEssay)
    as (_ & _ & Hfields).
  cbv zeta in Hfields.
  destruct (Server.essays
              (snd (Server.putEssay 1 (Spec.setStatus "archived") Spec.oneEssay))
            !! 1%positive) as [e1|] eqn:H1; [|vm_compute in H1; discriminate].
  destruct (Server.essays
              (snd (Server.putEssay 1 (Spec.setStatus "archived")
                      (snd (Server.putEssay 1 (Spec.setStatus "archived") Spec.oneEssay))))
            !! 1%positive) as [e2|] eqn:H2; [|vm_compute in H2; discriminate].
  simpl. f_equal. apply (Hfields 1%positive e1 e2 H1 H2).
Defined.

Lemma update_frame_witness :
  Server.putEssay 1 (Spec.setText "hi") Spec.oneEssay
  = (Server.failure 500 "Failed to update essay", Spec.oneEssay)
  /\ Server.putEssay 2 (Spec.setStatus "draft") Spec.oneEssay
     = (Server.failure 404 "Essay not found", Spec.oneEssay).
Proof.
  split.
  - destruct (update_frame 1 (Spec.setText "hi") Spec.oneEssay) as (_ & _ & _ & H & _).
    apply H. vm_compute. reflexivity.
  - destruct (update_frame 2 (Spec.setStatus "draft") Spec.oneEssay) as (_ & _ & _ & _ & H).
    apply H; vm_compute; reflexivity.
Defined.

(** ** Invariants of the stored documents *)

Section StoredDocuments.

Import Model Server Queries.

Local Open Scope Q_scope.

Variable random : nat -> Q.

(** A property of documents that every new document has and every update
    keeps holds of all documents of all reachable servers. *)
Lemma reachable_all (P : Essay -> Prop) :
  (forall (body : EvaluateBody) (text : string) (k : nat),
     ev_text body = Some text -> Spec.accepted text ->
     P (newEssay body text (fst (Engine.evaluateEssayAI random text k)))) ->
  (forall (body : UpdateBody) (e : Essay),
     validateUpdate (updateDataOf body) = true ->
     P e -> P (applyUpdate (updateDataOf body) e)) ->
  forall w : World, reachable random w ->
    map_Forall (fun _ e => P e) (essays w).
Proof.
  intros Hnew Hupd w [rs ->]. induction rs as [|r rs IH] using rev_ind.
  - apply map_Forall_empty.
  - unfold run in *. rewrite foldl_app. simpl.
    set (w := foldl (fun w r => snd (handle random r w)) initial rs) in *.
    destruct r as [body|id body|id]; simpl.
    + destruct (postEvaluate_cases random body w) as [[-> _]|(text & Ht & Hacc & H)];
        [exact IH|].
      cbv zeta in H. destruct H as [(_ & _ & ->)|(_ & _ & ->)]; [|exact IH].
      apply map_Forall_insert_2; [|exact IH]. now apply Hnew.
    + intros id' e' He'. rewrite putEssay_lookup in He'.
      destruct (validateUpdate (updateDataOf body)) eqn:Hv; simpl in He';
        [|exact (IH id' e' He')].
      case_bool_decide; [|exact (IH id' e' He')].
      destruct (essays w !! id') as [e|] eqn:He; [|discriminate].
      simpl in He'. inversion He'; subst e'.
      apply Hupd; [exact Hv | exact (IH id' e He)].
    + unfold deleteEssay, findByIdAndDelete.
      destruct (essays w !! id); simpl; [|exact IH].
      now apply map_Forall_delete.
Qed.

Lemma countsAgree_newEssay (body : EvaluateBody) (text : string) (k : nat) :
  Facts.countsAgree (newEssay body text (fst (Engine.evaluateEssayAI random text k))).
Proof. split; reflexivity. Qed.

Lemma countsAgree_applyUpdate (body : UpdateBody) (e : Essay) :
  Facts.countsAgree e -> Facts.countsAgree (applyUpdate (updateDataOf body) e).
Proof.
  intros [Hw Hc]. unfold Facts.countsAgree, applyUpdate, updateDataOf.
  cbn [text wordCount charCount set_text set_wordCount set_charCount].
  destruct (up_text body) as [t|]; [|split; assumption].
  destruct (truthy (Some t)); simpl; split; first [assumption | reflexivity].
Qed.

(** X15. In every reachable server the stored counts agree with the
    stored text: wordCount is the number of whitespace-delimited tokens of
    the trimmed text and charCount is its length; the text has at least 10
    characters and the level is 'undergrad' or 'mba'. *)
Theorem stored_counts_agree (w : World) (id : positive) (e : Essay) :
  reachable random w -> essays w !! id = Some e ->
  wordCount e = Engine.wordCountOf (text e)
  /\ charCount e = Str.len (text e)
  /\ (10 <= charCount e)%Z
  /\ (level e = "undergrad"%string \/ level e = "mba"%string).
Proof.
  intros Hreach He.
  assert (Hc : Facts.countsAgree e).
  { apply (reachable_all Facts.countsAgree) with (w := w) (i := id); try assumption.
    - intros body t k _ _. apply countsAgree_newEssay.
    - intros body e0 _. apply countsAgree_applyUpdate. }
  destruct Hc as [Hwc Hcc].
  destruct (reachable_wellFormed random w Hreach id e He) as [_ Hv].
  unfold validate in Hv. rewrite !andb_true_iff in Hv. destruct Hv as [[Ht Hl] _].
  split; [exact Hwc|]. split; [exact Hcc|]. split.
  - rewrite Hcc. unfold validText in Ht. lia.
  - apply bool_decide_eq_true in Hl. unfold levelEnum in Hl.
    rewrite !elem_of_cons in Hl. destruct Hl as [Hl|[Hl|Hl]]; auto.
    now apply elem_of_nil in Hl.
Qed.

Lemma scoresBounded_newEssay (body : EvaluateBody) (text : string) (k : nat) :
  Facts.scoresBounded (newEssay body text (fst (Engine.evaluateEssayAI random text k))).
Proof.
  eexists. split; [reflexivity|].
  cbn [overallScore breakdown castResults].
  rewrite eval_overallScore, eval_breakdown.
  split; [apply round_tenth_range, clampedScore_range|].
  cbn [Engine.grammar Engine.structure Engine.coherence Engine.vocabulary
       Engine.arguments].
  repeat split; apply min_le_l.
Qed.

(** X16. In every reachable server each stored assessment has an overall
    score within [50, 98] and breakdown values of at most 100, whatever
    the random source returned. *)
Theorem stored_scores_bounded (w : World) (id : positive) (e : Essay) :
  reachable random w -> essays w !! id = Some e ->
  exists r : Results,
    results e = Some r
    /\ (50 <= overallScore r /\ overallScore r <= 98)
    /\ (Engine.grammar (breakdown r) <= 100
        /\ Engine.structure (breakdown r) <= 100
        /\ Engine.coherence (breakdown r) <= 100
        /\ Engine.vocabulary (breakdown r) <= 100
        /\ Engine.arguments (breakdown r) <= 100).
Proof.
  intros Hreach He.
  apply (reachable_all Facts.scoresBounded) with (w := w) (i := id); try assumption.
  - intros body t k _ _. apply scoresBounded_newEssay.
  - intros body e0 _ H. exact H.
Qed.

End StoredDocuments.

Lemma stored_counts_agree_witness :
  Model.wordCount Spec.sampleEssay = Engine.wordCountOf (Model.text Spec.sampleEssay)
  /\ Model.charCount Spec.sampleEssay = Str.len (Model.text Spec.sampleEssay)
  /\ 10 <= Model.charCount Spec.sampleEssay
  /\ (Model.level Spec.sampleEssay = "undergrad"%string
      \/ Model.level Spec.sampleEssay = "mba"%string).
Proof.
  apply (stored_counts_agree Spec.half Spec.oneEssay 1 Spec.sampleEssay).
  - exists [Server.Evaluate Spec.evaluateSample]. reflexivity.
  - vm_compute. reflexivity.
Defined.

Lemma stored_scores_bounded_witness :
  exists r : Model.Results,
    Model.results Spec.sampleEssay = Some r
    /\ (50 <= Model.overallScore r /\ Model.overallScore r <= 98)%Q
    /\ (Engine.grammar (Model.breakdown r) <= 100
        /\ Engine.structure (Model.breakdown r) <= 100
        /\ Engine.coherence (Model.breakdown r) <= 100
        /\ Engine.vocabulary (Model.breakdown r) <= 100
        /\ Engine.arguments (Model.breakdown r) <= 100)%Q.
Proof.
  apply (stored_scores_bounded Spec.half Spec.oneEssay 1 Spec.sampleEssay).
  - exists [Server.Evaluate Spec.evaluateSample]. reflexivity.
  - vm_compute. reflexivity.
Defined.

(** ** Statistics *)

Section Statistics.

Import Model Server Queries.

Local Open Scope Q_scope.

Lemma levelCount_insert (l : string) (coll : gmap positive Essay)
    (i : positive) (x : Essay) :
  coll !! i = None ->
  Facts.levelCount l (<[i := x]> coll)
  = if decide (level x = l) then S (Facts.levelCount l coll)
    else Facts.levelCount l coll.
Proof.
  intros Hi. unfold Facts.levelCount. destruct (decide (level x = l)) as [Hl|Hl].
  - rewrite map_filter_insert_True by exact Hl.
    apply map_size_insert_None. apply map_lookup_filter_None. now left.
  - rewrite map_filter_insert_not'; [reflexivity | exact Hl |].
    intros y Hy. rewrite Hi in Hy. discriminate.
Qed.

Lemma levelStats_lookup (coll : gmap positive Essay) (l : string) :
  levelStats coll !! l
  = if Nat.eqb (Facts.levelCount l coll) 0 then None
    else Some (Facts.levelCount l coll).
Proof.
  revert l. unfold levelStats.
  apply (map_fold_weak_ind (fun acc m => forall l,
    acc !! l = if Nat.eqb (Facts.levelCount l m) 0 then None
               else Some (Facts.levelCount l m))).
  - intros l. unfold Facts.levelCount. rewrite map_filter_empty, map_size_empty.
    apply lookup_empty.
  - intros i x m acc Hi IH l. rewrite (levelCount_insert l m i x Hi).
    destruct (decide (level x = l)) as [Hl|Hl].
    + subst l. rewrite lookup_insert_eq, IH.
      destruct (Facts.levelCount (level x) m); reflexivity.
    + rewrite lookup_insert_ne by exact Hl. apply IH.
Qed.

(** X17. The statistics count every stored document and report, for each
    level, the number of documents of that level; a level without a
    document has no group. *)
Theorem stats_by_level (w : World) (l : string) :
  totalEssays (getStats w) = Z.of_nat (size (essays w))
  /\ byLevel (getStats w) !! l
     = (if Nat.eqb (Facts.levelCount l (essays w)) 0 then None
        else Some (Facts.levelCount l (essays w)))
  /\ (byLevel (getStats w) !! l = None <->
      forall (id : positive) (e : Essay), essays w !! id = Some e -> level e <> l).
Proof.
  split; [reflexivity|]. cbn [byLevel getStats]. rewrite levelStats_lookup.
  split; [reflexivity|].
  unfold Facts.levelCount.
  destruct (size (filter (fun d => level d.2 = l) (essays w))) as [|n] eqn:E; simpl.
  - apply map_size_empty_inv in E. split; [|reflexivity].
    intros _ id e He Hl.
    exact (map_filter_empty_not_lookup _ _ id e E Hl He).
  - split; [discriminate|]. intros H. exfalso.
    assert (Hne : filter (fun d => level d.2 = l) (essays w) <> ∅)
      by (apply map_size_non_empty_iff; lia).
    apply map_choose in Hne. destruct Hne as (id & e & He).
    apply map_lookup_filter_Some in He. destruct He as [He Hl].
    exact (H id e He Hl).
Qed.

Lemma levels_partition (coll : gmap positive Essay) :
  map_Forall (fun _ e => level e = "undergrad"%string \/ level e = "mba"%string) coll ->
  (Facts.levelCount "undergrad" coll + Facts.levelCount "mba" coll)%nat = size coll.
Proof.
  induction coll as [|i x m Hi IH] using map_ind.
  - intros _. unfold Facts.levelCount. now rewrite !map_filter_empty, map_size_empty.
  - intros Hall. apply map_Forall_insert in Hall; [|exact Hi].
    destruct Hall as [Hx Hm]. specialize (IH Hm).
    rewrite !(levelCount_insert _ m i x Hi), map_size_insert_None by exact Hi.
    destruct Hx as [Hx|Hx]; rewrite Hx;
      repeat (destruct (decide _) as [?|?]; try discriminate; try contradiction);
      lia.
Qed.

Lemma sumQ_bounds (l : list Q) :
  Forall (fun q => 50 <= q /\ q <= 98) l ->
  50 * inject_Z (Z.of_nat (length l)) <= sumQ l
  /\ sumQ l <= 98 * inject_Z (Z.of_nat (length l)).
Proof.
  induction 1 as [|q l [Hlo Hhi] _ IH].
  - cbn [length sumQ foldr]. change (inject_Z (Z.of_nat 0)) with 0. split; lra.
  - cbn [length sumQ foldr]. fold (sumQ l).
    rewrite Nat2Z.inj_succ, <- Z.add_1_r, inject_Z_plus.
    change (inject_Z 1) with 1. destruct IH. split; lra.
Qed.

Lemma averageOf_range (l : list Q) :
  l <> [] -> Forall (fun q => 50 <= q /\ q <= 98) l ->
  50 <= averageOf l /\ averageOf l <= 98.
Proof.
  intros Hne Hall. destruct (sumQ_bounds l Hall) as [Hlo Hhi].
  unfold averageOf. destruct l as [|q l']; [contradiction|].
  set (l := q :: l') in *.
  assert (Hn : 0 < inject_Z (Z.of_nat (length l))).
  { change 0 with (inject_Z 0). rewrite <- Zlt_Qlt. simpl. lia. }
  assert (Havg : 50 <= sumQ l / inject_Z (Z.of_nat (length l))
                 /\ sumQ l / inject_Z (Z.of_nat (length l)) <= 98).
  { split; [apply Qle_shift_div_l | apply Qle_shift_div_r]; assumption. }
  destruct (Qeq_bool (sumQ l / inject_Z (Z.of_nat (length l))) 0) eqn:E;
    [|exact Havg].
  apply Qeq_bool_iff in E. lra.
Qed.

Variable random : nat -> Q.

(** X18. In every reachable server the two groups 'undergrad' and 'mba'
    of the statistics add up to the total number of essays, and no other
    level has a group. *)
Theorem stats_levels_total (w : World) :
  reachable random w ->
  Z.of_nat (default 0%nat (byLevel (getStats w) !! "undergrad"%string)
            + default 0%nat (byLevel (getStats w) !! "mba"%string))
  = totalEssays (getStats w)
  /\ (forall l : string, l <> "undergrad"%string -> l <> "mba"%string ->
        byLevel (getStats w) !! l = None).
Proof.
  intros Hreach. cbn [byLevel totalEssays getStats].
  assert (Hall : map_Forall
            (fun _ e => level e = "undergrad"%string \/ level e = "mba"%string)
            (essays w)).
  { intros id e He.
    destruct (reachable_wellFormed random w Hreach id e He) as [_ Hv].
    unfold validate in Hv. rewrite !andb_true_iff in Hv. destruct Hv as [[_ Hl] _].
    apply bool_decide_eq_true in Hl. unfold levelEnum in Hl.
    rewrite !elem_of_cons in Hl. destruct Hl as [Hl|[Hl|Hl]]; auto.
    now apply elem_of_nil in Hl. }
  split.
  - rewrite !levelStats_lookup, <- (levels_partition (essays w) Hall).
    destruct (Facts.levelCount "undergrad" (essays w)),
      (Facts.levelCount "mba" (essays w)); reflexivity.
  - intros l Hu Hm. rewrite levelStats_lookup.
    assert (Hzero : Facts.levelCount l (essays w) = 0%nat).
    { unfold Facts.levelCount. apply map_size_empty_iff.
      apply map_empty. intros id. apply map_lookup_filter_None. right.
      intros e He Hl. simpl in Hl. destruct (Hall id e He); congruence. }
    now rewrite Hzero.
Qed.

(** X19. The average score of the statistics is 0 for an empty
    collection, and within [50, 98] for every reachable server that holds
    an essay. *)
Theorem stats_average_range (w : World) :
  reachable random w ->
  (essays w = ∅ -> averageScore (getStats w) = 0)
  /\ (essays w <> ∅ ->
      50 <= averageScore (getStats w) /\ averageScore (getStats w) <= 98).
Proof.
  intros Hreach. cbn [averageScore getStats]. split.
  - intros ->. unfold scoresOf. now rewrite map_to_list_empty.
  - intros Hne.
    assert (Hall : map_Forall (fun _ e => Facts.scoresBounded e) (essays w)).
    { apply (reachable_all random Facts.scoresBounded); [| |exact Hreach].
      - intros body t k _ _. apply scoresBounded_newEssay.
      - intros body e0 _ H. exact H. }
    apply averageOf_range.
    + apply map_choose in Hne. destruct Hne as (id & e & He).
      destruct (Hall id e He) as (r & Hr & _).
      intros Hnil.
      assert (Hin : overallScore r ∈ scoresOf (essays w)).
      { unfold scoresOf. apply list_elem_of_omap. exists (id, e).
        split; [now apply elem_of_map_to_list|]. simpl. now rewrite Hr. }
      rewrite Hnil in Hin. now apply elem_of_nil in Hin.
    + apply Forall_forall. intros q Hq. unfold scoresOf in Hq.
      apply list_elem_of_omap in Hq. destruct Hq as ([id e] & Hin & Hq).
      apply elem_of_map_to_list in Hin.
      destruct (Hall id e Hin) as (r & Hr & Hrange & _).
      simpl in Hq. rewrite Hr in Hq. simpl in Hq. inversion Hq; subst q.
      exact Hrange.
Qed.

End Statistics.

Lemma stats_levels_total_witness :
  Z.of_nat (default 0%nat (Queries.byLevel (Queries.getStats Spec.oneEssay) !! "undergrad"%string)
            + default 0%nat (Queries.byLevel (Queries.getStats Spec.oneEssay) !! "mba"%string))
  = Queries.totalEssays (Queries.getStats Spec.oneEssay).
Proof.
  apply (stats_levels_total Spec.half Spec.oneEssay).
  exists [Server.Evaluate Spec.evaluateSample]. reflexivity.
Defined.

Lemma stats_average_range_witness :
  (50 <= Queries.averageScore (Queries.getStats Spec.oneEssay)
   /\ Queries.averageScore (Queries.getStats Spec.oneEssay) <= 98)%Q.
Proof.
  apply (stats_average_range Spec.half Spec.oneEssay).
  - exists [Server.Evaluate Spec.evaluateSample]. reflexivity.
  - vm_compute. discriminate.
Defined.

(** ** The paginated listing *)

Section Listing.

Import Model Server Queries.

Variable sortDocs : string -> bool -> list (positive * Essay) -> list (positive * Essay).
Hypothesis sort_perm : forall f d l, sortDocs f d l ≡ₚ l.

Lemma listEssays_Some (q : ListQuery) (w : World) (L : Listing) :
  listEssays sortDocs q w = Some L ->
  exists p l : Z,
    intParam (q_page q) 1 = Some p /\ intParam (q_limit q) 10 = Some l
    /\ 1 <= p /\ 1 <= l
    /\ listed L = take (Z.to_nat l) (drop (Z.to_nat ((p - 1) * l)) (Facts.sortedOf sortDocs q w))
    /\ pagination L
       = {| page := p; limit := l;
            total := Z.of_nat (length (found q (essays w)));
            pages := Num.ceil (inject_Z (Z.of_nat (length (found q (essays w))))
                               / inject_Z l)%Q |}.
Proof.
  unfold listEssays.
  destruct (intParam (q_page q) 1) as [p|]; [|discriminate].
  destruct (intParam (q_limit q) 10) as [l|]; [|discriminate].
  destruct (Z.leb_spec 1 p); [|discriminate].
  destruct (Z.leb_spec 1 l); [|discriminate]. simpl.
  intros HL. inversion HL; subst L. exists p, l. repeat split; assumption.
Qed.

Lemma found_spec (q : ListQuery) (coll : gmap positive Essay) (id : positive) (e : Essay) :
  (id, e) ∈ found q coll <-> coll !! id = Some e /\ matches q e = true.
Proof.
  unfold found. rewrite list_elem_of_In, List.filter_In, <- list_elem_of_In.
  rewrite elem_of_map_to_list. reflexivity.
Qed.

Lemma found_NoDup (q : ListQuery) (coll : gmap positive Essay) : NoDup (found q coll).
Proof.
  unfold found. apply NoDup_ListNoDup, List.NoDup_filter, NoDup_ListNoDup.
  apply NoDup_map_to_list.
Qed.

Lemma sortedOf_length (q : ListQuery) (w : World) :
  length (Facts.sortedOf sortDocs q w) = length (found q (essays w)).
Proof. unfold Facts.sortedOf. now rewrite sort_perm. Qed.

Lemma ceil_div_bounds (t l : Z) :
  0 < l ->
  (Num.ceil (inject_Z t / inject_Z l)%Q - 1) * l < t
  /\ t <= Num.ceil (inject_Z t / inject_Z l)%Q * l.
Proof.
  intros Hl. unfold Num.ceil.
  pose proof (Qle_ceiling (inject_Z t / inject_Z l)) as Hle.
  pose proof (Qceiling_lt (inject_Z t / inject_Z l)) as Hlt.
  set (c := Qceiling (inject_Z t / inject_Z l)) in *. clearbody c.
  assert (Hpos : (0 < inject_Z l)%Q).
  { change 0%Q with (inject_Z 0). now rewrite <- Zlt_Qlt. }
  assert (Hx : (inject_Z t / inject_Z l * inject_Z l == inject_Z t)%Q).
  { field. intros H. rewrite H in Hpos. now apply Qlt_irrefl in Hpos. }
  apply (Qmult_le_compat_r _ _ (inject_Z l)) in Hle; [|now apply Qlt_le_weak].
  apply (Qmult_lt_compat_r _ _ (inject_Z l) Hpos) in Hlt.
  rewrite Hx in Hle, Hlt. rewrite <- inject_Z_mult in Hle, Hlt.
  rewrite <- Zle_Qle in Hle. rewrite <- Zlt_Qlt in Hlt. split; assumption.
Qed.

(** X20. A listing returns at most [limit] documents, without
    repetition; each of them is stored and passes the status and level
    filters of the query; and [total] is the number of stored documents
    that pass them, whatever the page and the limit. *)
Theorem list_page_contents (q : ListQuery) (w : World) (L : Listing) :
  listEssays sortDocs q w = Some L ->
  Z.of_nat (length (listed L)) <= limit (pagination L)
  /\ NoDup (listed L)
  /\ (forall (id : positive) (e : Essay),
        (id, e) ∈ listed L -> essays w !! id = Some e /\ matches q e = true)
  /\ total (pagination L) = Z.of_nat (length (found q (essays w)))
  /\ NoDup (found q (essays w))
  /\ (forall (id : positive) (e : Essay),
        (id, e) ∈ found q (essays w)
        <-> essays w !! id = Some e /\ matches q e = true).
Proof.
  intros HL. destruct (listEssays_Some q w L HL) as (p & l & _ & _ & Hp & Hl & -> & ->).
  cbn [limit total].
  split; [rewrite length_take; lia|].
  assert (Hsub : take (Z.to_nat l) (drop (Z.to_nat ((p - 1) * l)) (Facts.sortedOf sortDocs q w))
                 `sublist_of` Facts.sortedOf sortDocs q w).
  { etransitivity; [apply sublist_take | apply sublist_drop]. }
  assert (Hnd : NoDup (Facts.sortedOf sortDocs q w)).
  { unfold Facts.sortedOf. rewrite sort_perm. apply found_NoDup. }
  split; [exact (sublist_NoDup _ _ Hnd Hsub)|].
  split.
  - intros id e Hin. apply found_spec.
    apply (fun H => elem_of_sublist _ _ _ H Hsub) in Hin. unfold Facts.sortedOf in Hin.
    now rewrite sort_perm in Hin.
  - split; [reflexivity|]. split; [apply found_NoDup|]. intros id e. apply found_spec.
Qed.

(** X21. The number of pages of a listing is the least number of pages of
    [limit] documents that hold the [total]; the page asked for is empty
    exactly when it lies beyond the last page, and every page before the
    last one is full. *)
Theorem list_page_count (q : ListQuery) (w : World) (L : Listing) :
  listEssays sortDocs q w = Some L ->
  let P := pagination L in
  1 <= page P /\ 1 <= limit P /\ 0 <= pages P
  /\ (pages P - 1) * limit P < total P <= pages P * limit P
  /\ (listed L = [] <-> pages P < page P)
  /\ (page P < pages P -> Z.of_nat (length (listed L)) = limit P).
Proof.
  intros HL P. subst P.
  destruct (listEssays_Some q w L HL) as (p & l & _ & _ & Hp & Hl & Hlist & ->).
  cbn [page limit total pages].
  pose proof (sortedOf_length q w) as Hlen.
  destruct (ceil_div_bounds (Z.of_nat (length (found q (essays w)))) l) as [Hlo Hhi];
    [lia|].
  set (c := Num.ceil (inject_Z (Z.of_nat (length (found q (essays w)))) / inject_Z l)%Q) in *.
  clearbody c.
  set (n := length (found q (essays w))) in *.
  assert (Hlength : length (listed L)
                    = Nat.min (Z.to_nat l) (n - Z.to_nat ((p - 1) * l))).
  { rewrite Hlist, length_take, length_drop, Hlen. reflexivity. }
  assert (Hskip : 0 <= (p - 1) * l) by nia.
  split; [exact Hp|]. split; [exact Hl|]. split; [nia|]. split; [lia|]. split.
  - rewrite <- length_zero_iff_nil, Hlength. split; intros H.
    + assert (Z.of_nat n <= (p - 1) * l) by lia. nia.
    + assert (Z.of_nat n <= (p - 1) * l) by nia. lia.
  - intros Hpc. rewrite Hlength.
    assert (Hfull : (p - 1) * l + l <= Z.of_nat n) by nia. lia.
Qed.

Lemma drop_take_chunks {A : Type} (l : nat) (docs : list A) (n : nat) :
  (length docs <= n * l)%nat ->
  concat ((fun k => take l (drop (k * l) docs)) <$> seq 0 n) = docs.
Proof.
  revert docs. induction n as [|n IH]; intros docs Hlen.
  - simpl in *. destruct docs; [reflexivity | simpl in Hlen; lia].
  - change (seq 0 (S n)) with (0%nat :: seq 1 n).
    rewrite fmap_cons, <- fmap_S_seq, <- list_fmap_compose. cbn [concat].
    transitivity (take l docs ++ drop l docs); [|apply take_drop].
    f_equal.
    etransitivity; [|apply (IH (drop l docs)); rewrite length_drop; lia].
    f_equal. apply list_fmap_ext. intros i k _. simpl.
    now rewrite drop_drop.
Qed.

Lemma listEssays_page (q q' : ListQuery) (w : World) (k : nat) (l : Z) :
  intParam (q_limit q) 10 = Some l -> 1 <= l ->
  Facts.asksPage q (S k) q' ->
  listed <$> listEssays sortDocs q' w
  = Some (take (Z.to_nat l) (drop (k * Z.to_nat l) (Facts.sortedOf sortDocs q w))).
Proof.
  intros Hlim Hl (Hpage & Hq1 & Hq2 & Hq3 & Hq4 & Hq5).
  unfold listEssays. rewrite Hpage, Hq1, Hlim.
  destruct (Z.leb_spec 1 (Z.of_nat (S k))); [|lia].
  destruct (Z.leb_spec 1 l); [|lia]. simpl.
  unfold Facts.sortedOf, found, matches. rewrite Hq2, Hq3, Hq4, Hq5.
  do 3 f_equal. lia.
Qed.

End Listing.

(** X22. The pages of a listing partition it when the store answers the
    page requests in one order: if the requests for the pages 1 to
    [pages] differ only in the page number and each finds the matching
    documents in the same order, then each is answered, and their
    documents, page after page, are the stored documents that pass the
    filters, each exactly once, in that order. *)
Theorem list_pages_partition
    (sortDocs : string -> bool -> list (positive * Model.Essay)
                -> list (positive * Model.Essay))
    (q : Queries.ListQuery) (w : Server.World) (L : Queries.Listing)
    (rs : list ((string -> bool -> list (positive * Model.Essay)
                 -> list (positive * Model.Essay)) * Queries.ListQuery)) :
  (forall f d l, sortDocs f d l ≡ₚ l) ->
  Queries.listEssays sortDocs q w = Some L ->
  Z.of_nat (length rs) = Queries.pages (Queries.pagination L) ->
  (forall k r, rs !! k = Some r ->
     Facts.asksPage q (S k) (snd r)
     /\ Facts.sortedOf (fst r) q w = Facts.sortedOf sortDocs q w) ->
  Forall (fun r => is_Some (Queries.listEssays (fst r) (snd r) w)) rs
  /\ concat (omap (fun r => Queries.listed <$> Queries.listEssays (fst r) (snd r) w) rs)
     = Facts.sortedOf sortDocs q w
  /\ Facts.sortedOf sortDocs q w ≡ₚ Queries.found q (Server.essays w).
Proof.
  intros Hperm HL Hn Hrs.
  destruct (listEssays_Some sortDocs q w L HL) as (p & l & _ & Hlim & _ & Hl & _ & HP).
  rewrite HP in Hn. cbn [Queries.pages] in Hn.
  destruct (ceil_div_bounds (Z.of_nat (length (Queries.found q (Server.essays w)))) l)
    as [_ Hhi]; [lia|].
  rewrite <- Hn in Hhi.
  assert (Hpages : forall k r, rs !! k = Some r ->
            Queries.listed <$> Queries.listEssays (fst r) (snd r) w
            = Some (take (Z.to_nat l)
                      (drop (k * Z.to_nat l) (Facts.sortedOf sortDocs q w)))).
  { intros k r Hk. destruct (Hrs k r Hk) as [Hask Hsame].
    rewrite <- Hsame. now apply (listEssays_page (fst r) q (snd r) w k l). }
  split; [|split].
  - apply Forall_lookup. intros k r Hk. specialize (Hpages k r Hk).
    destruct (Queries.listEssays (fst r) (snd r) w);
      [eexists; reflexivity | discriminate].
  - assert (Homap : forall (off : nat) rs',
              (forall k r, rs' !! k = Some r ->
                 Queries.listed <$> Queries.listEssays (fst r) (snd r) w
                 = Some (take (Z.to_nat l)
                           (drop ((off + k) * Z.to_nat l)
                              (Facts.sortedOf sortDocs q w)))) ->
              omap (fun r => Queries.listed <$> Queries.listEssays (fst r) (snd r) w) rs'
              = (fun k => take (Z.to_nat l)
                            (drop (k * Z.to_nat l) (Facts.sortedOf sortDocs q w)))
                <$> seq off (length rs')).
    { intros off rs'. revert off. induction rs' as [|r0 rs' IH]; intros off H;
        [reflexivity|].
      cbn [omap list_omap length seq fmap list_fmap].
      rewrite (H 0%nat r0 eq_refl). rewrite Nat.add_0_r. f_equal.
      apply IH. intros k r Hk. rewrite (H (S k) r Hk). do 4 f_equal. lia. }
    rewrite (Homap 0%nat rs Hpages). apply drop_take_chunks.
    rewrite (sortedOf_length sortDocs Hperm). nia.
  - unfold Facts.sortedOf. apply Hperm.
Qed.

Lemma unsorted_perm (f : string) (d : bool) (l : list (positive * Model.Essay)) :
  Facts.unsorted f d l ≡ₚ l.
Proof. reflexivity. Qed.

(** Without one order the pages need not partition the listing: with two
    stored documents and one document per page, a second page that the
    store answers in the reverse order repeats the document of the first
    page. *)
Lemma pages_in_two_orders_repeat :
  Queries.listed <$> Queries.listEssays Facts.unsorted (Facts.pageQuery "1" "1") Facts.twoEssays
  = Queries.listed <$> Queries.listEssays Facts.reversed (Facts.pageQuery "2" "1") Facts.twoEssays.
Proof. vm_compute. reflexivity. Qed.

Lemma list_page_contents_witness :
  exists L : Queries.Listing,
    Queries.listEssays Facts.unsorted (Facts.pageQuery "1" "10") Spec.oneEssay = Some L
    /\ Z.of_nat (length (Queries.listed L)) <= Queries.limit (Queries.pagination L)
    /\ NoDup (Queries.listed L).
Proof.
  destruct (Queries.listEssays Facts.unsorted (Facts.pageQuery "1" "10") Spec.oneEssay)
    as [L|] eqn:HL; [|vm_compute in HL; discriminate].
  exists L. split; [reflexivity|].
  destruct (list_page_contents Facts.unsorted unsorted_perm
              (Facts.pageQuery "1" "10") Spec.oneEssay L HL) as (H1 & H2 & _).
  exact (conj H1 H2).
Defined.

Lemma list_page_count_witness :
  exists L : Queries.Listing,
    Queries.listEssays Facts.unsorted (Facts.pageQuery "2" "10") Spec.oneEssay = Some L
    /\ (Queries.listed L = []
        <-> Queries.pages (Queries.pagination L) < Queries.page (Queries.pagination L)).
Proof.
  destruct (Queries.listEssays Facts.unsorted (Facts.pageQuery "2" "10") Spec.oneEssay)
    as [L|] eqn:HL; [|vm_compute in HL; discriminate].
  exists L. split; [reflexivity|].
  apply (list_page_count Facts.unsorted unsorted_perm
           (Facts.pageQuery "2" "10") Spec.oneEssay L HL).
Defined.

Lemma list_pages_partition_witness :
  concat (omap (fun r => Queries.listed
                           <$> Queries.listEssays (fst r) (snd r) Facts.twoEssays)
               [(Facts.unsorted, Facts.pageQuery "1" "1");
                (Facts.unsorted, Facts.pageQuery "2" "1")])
  = Facts.sortedOf Facts.unsorted (Facts.pageQuery "1" "1") Facts.twoEssays.
Proof.
  destruct (Queries.listEssays Facts.unsorted (Facts.pageQuery "1" "1") Facts.twoEssays)
    as [L|] eqn:HL; [|vm_compute in HL; discriminate].
  apply (list_pages_partition Facts.unsorted
           (Facts.pageQuery "1" "1") Facts.twoEssays L
           [(Facts.unsorted, Facts.pageQuery "1" "1");
            (Facts.unsorted, Facts.pageQuery "2" "1")] unsorted_perm HL).
  - pose proof HL as HL'. vm_compute in HL'. injection HL' as <-. reflexivity.
  - intros k r Hk. destruct k as [|[|k]]; [| |discriminate];
      injection Hk as <-; repeat split.
Defined.

Lemma baseScore_range_witness : Engine.baseScoreOf Spec.sampleText <= 68.
Proof.
  destruct (baseScore_range Spec.sampleText) as (_ & Hshort & _).
  apply Hshort. vm_compute. reflexivity.
Defined.

Lemma stats_by_level_witness :
  Queries.byLevel (Queries.getStats Spec.oneEssay) !! "undergrad"%string = Some 1%nat
  /\ Queries.byLevel (Queries.getStats Spec.oneEssay) !! "phd"%string = None.
Proof.
  destruct (stats_by_level Spec.oneEssay "undergrad") as (_ & Hu & _).
  destruct (stats_by_level Spec.oneEssay "phd") as (_ & Hp & _).
  rewrite Hu, Hp. split; vm_compute; reflexivity.
Defined.

(** ** Partial updates *)

Section PartialUpdate.

Import Model Server.

(** X23. An accepted update of a stored submission sets the level, the
    status and the university label that the body carries and keeps every
    field that the body leaves out or, for text, level and status, gives
    as an empty string. *)
Theorem update_sets_supplied_fields
    (id : positive) (body : UpdateBody) (w : World) (e e' : Essay) :
  essays w !! id = Some e ->
  validateUpdate (updateDataOf body) = true ->
  essays (snd (putEssay id body w)) !! id = Some e' ->
  (forall s : string, up_level body = Some s -> s <> ""%string ->
     level e' = s /\ (s = "undergrad"%string \/ s = "mba"%string))
  /\ (truthy (up_level body) = false -> level e' = level e)
  /\ (forall s : string, up_status body = Some s -> s <> ""%string -> status e' = s)
  /\ (truthy (up_status body) = false -> status e' = status e)
  /\ (forall s : string, up_university body = Some s -> university e' = s)
  /\ (up_university body = None -> university e' = university e)
  /\ (truthy (up_text body) = false ->
      text e' = text e /\ wordCount e' = wordCount e /\ charCount e' = charCount e).
Proof.
  intros He Hv He'. rewrite putEssay_lookup, Hv, He in He'. simpl in He'.
  rewrite bool_decide_eq_true_2 in He' by reflexivity.
  inversion He'; subst e'. clear He'.
  unfold applyUpdate.
  cbn [text university level wordCount charCount status].
  unfold validateUpdate in Hv. rewrite !andb_true_iff in Hv.
  destruct Hv as [[_ Hl] _]. revert Hl.
  unfold updateDataOf.
  cbn [set_text set_wordCount set_charCount set_university set_level set_status].
  intros Hl.
  split; [|split; [|split; [|split; [|split; [|split]]]]].
  - intros s Hs Hne. rewrite Hs in *. rewrite (truthy_of_nonempty s Hne) in *.
    split; [reflexivity|]. simpl in Hl. apply bool_decide_eq_true in Hl.
    unfold levelEnum in Hl. rewrite !elem_of_cons in Hl.
    destruct Hl as [Hl|[Hl|Hl]]; auto. now apply elem_of_nil in Hl.
  - intros ->. reflexivity.
  - intros s Hs Hne. rewrite Hs, (truthy_of_nonempty s Hne). reflexivity.
  - intros ->. reflexivity.
  - intros s ->. reflexivity.
  - intros ->. reflexivity.
  - intros ->. repeat split.
Qed.

End PartialUpdate.

Lemma update_sets_supplied_fields_witness :
  Model.status
    <$> Server.essays (snd (Server.putEssay 1 (Spec.setStatus "archived") Spec.oneEssay))
        !! 1%positive
  = Some "archived"%string.
Proof.
  destruct (Server.essays
              (snd (Server.putEssay 1 (Spec.setStatus "archived") Spec.oneEssay))
            !! 1%positive) as [e'|] eqn:He'; [|vm_compute in He'; discriminate].
  simpl. f_equal.
  destruct (update_sets_supplied_fields 1 (Spec.setStatus "archived") Spec.oneEssay
              Spec.sampleEssay e') as (_ & _ & Hstatus & _).
  - vm_compute. reflexivity.
  - vm_compute. reflexivity.
  - exact He'.
  - apply (Hstatus "archived"%string); [reflexivity | discriminate].
Defined.
